(** * paper_query.py: the Semantic Scholar query helper, seed papers and snowballing

    A shallow embedding of [src/paper_query.py].  Python values are an
    inductive type, exceptions are an error type, and the effects of the
    script (console output, HTTP requests, [sleep], files opened for writing)
    are threaded through an explicit world state in a small state-and-error
    monad.  What the script calls but does not define (the [requests]
    session, the [json] codec, the file system) is taken as an interface. *)

From Stdlib Require Import QArith.
From Stdlib Require Import Ascii String.
From stdpp Require Import gmap strings list pretty.

Local Open Scope Z_scope.

(** ** Python values *)

(** The objects [response.json()] can produce.  A dict keeps its insertion
    order, as Python's does, so it is an association list; the decoder is the
    one responsible for its keys being distinct.  JSON [null] and Python's
    [None] are the same object.  Floating-point numbers are outside the
    model. *)
#[local] Set Warnings "-register-all".
Inductive pyval : Type :=
| VNone
| VBool (b : bool)
| VInt (n : Z)
| VStr (s : string)
| VList (items : list pyval)
| VDict (entries : list (string * pyval)).
#[local] Set Warnings "register-all".

(** ** Exceptions *)

(** The [Exception] subclasses the script can meet.  [except Exception]
    catches each of them; asynchronous [BaseException]s (a keyboard
    interrupt, a system exit) are outside the model. *)
Inductive exn : Type :=
| ConnectionError (msg : string)   (* requests.exceptions.ConnectionError *)
| ReadTimeout (seconds : Z)        (* requests.exceptions.Timeout: no answer within the timeout *)
| JSONDecodeError (doc : string)   (* Response.json() on a body that is not JSON *)
| OSError (path : string)          (* open() or write() failing *)
| KeyError (key : string)
| TypeError (msg : string)
| AttributeError (name : string).

Inductive outcome (A : Type) : Type :=
| Returns (a : A)
| Raises (e : exn).
Arguments Returns {A} a.
Arguments Raises {A} e.

(** ** The objects of the two classes *)

(** A [SemanticScholarQueryHelper] holds the session and the base URL.  The
    session stands for the environment's [session_get] below; the object
    keeps the base URL. *)
Record SemanticScholarQueryHelper : Type := mkHelper {
  _api : string
}.

(** A [SeedPaper] object with the four attributes [__init__] sets. *)
Record SeedPaper : Type := mkSeedPaper {
  _id : pyval;
  _query : SemanticScholarQueryHelper;
  _citations : list pyval;
  _references : list pyval
}.

(** A reference to a [SeedPaper] object. *)
Definition loc : Type := nat.

(** ** The world: files, objects and the trace of observable effects *)

Inductive event : Type :=
| EvPrint (line : string)                  (* print(f'...') *)
| EvPrintExn (e : exn)                     (* print(e) *)
| EvRequest (url : string) (timeout : Z)   (* session.get(url, timeout=...) *)
| EvSleep (seconds : Q).                   (* sleep(...) *)

Record World : Type := mkWorld {
  files : gmap string string;   (* path -> content; a file goes by the path
                                   as the script wrote it, and two spellings
                                   of one file are two entries here *)
  trace : list event;           (* oldest event first *)
  heap : gmap loc SeedPaper     (* the SeedPaper objects alive *)
}.

Definition emit (e : event) (w : World) : World :=
  mkWorld (files w) (trace w ++ [e]) (heap w).

Definition set_file (path content : string) (w : World) : World :=
  mkWorld (<[path := content]> (files w)) (trace w) (heap w).

(** ** What the script relies on *)

(** A [requests.Response]: only its body and status are of interest. *)
Record Response : Type := mkResponse {
  status_code : Z;
  text : string
}.

Inductive reply : Type :=
| Responded (r : Response)
| Failed (e : exn).

(** The outside world.  Each answer may depend on everything that happened so
    far, so the same URL can be answered differently at different times. *)
Record Env : Type := mkEnv {
  (* what [session.get(url, timeout=t)] does *)
  session_get : list event -> string -> Z -> reply;
  (* whether [open(path, 'w')] succeeds (the directory exists, ...) *)
  open_ok : list event -> string -> bool;
  (* how many characters can be written to [path] before the write raises;
     [None]: no limit *)
  disk_room : list event -> string -> option nat
}.

(** The library functions of Python the script calls. *)
Class PyLib : Type := mkPyLib {
  json_loads : string -> option pyval;   (* the decoder behind Response.json() *)
  json_dumps : pyval -> string;          (* what json.dump writes *)
  py_repr : pyval -> string              (* the built-in repr() *)
}.

(** ** The state-and-error monad *)

Definition M (A : Type) : Type := World -> outcome A * World.

Definition ret {A} (a : A) : M A := fun w => (Returns a, w).

Definition raise {A} (e : exn) : M A := fun w => (Raises e, w).

Definition bind {A B} (m : M A) (k : A -> M B) : M B :=
  fun w =>
    match m w with
    | (Returns a, w') => k a w'
    | (Raises e, w') => (Raises e, w')
    end.

(** [try: body except Exception as e: handler e] *)
Definition try_except {A} (body : M A) (handler : exn -> M A) : M A :=
  fun w =>
    match body w with
    | (Returns a, w') => (Returns a, w')
    | (Raises e, w') => handler e w'
    end.

Definition lift {A} (o : outcome A) : M A := fun w => (o, w).

Notation "x <- m ;; k" := (bind m (fun x => k))
  (at level 62, m at next level, right associativity).
Notation "m ;;; k" := (bind m (fun _ => k))
  (at level 62, right associativity).

Definition print (line : string) : M unit :=
  fun w => (Returns tt, emit (EvPrint line) w).

Definition print_exn (e : exn) : M unit :=
  fun w => (Returns tt, emit (EvPrintExn e) w).

Definition sleep (seconds : Q) : M unit :=
  fun w => (Returns tt, emit (EvSleep seconds) w).

(** [for x in xs: body x] *)
Fixpoint for_each {A} (xs : list A) (body : A -> M unit) : M unit :=
  match xs with
  | [] => ret tt
  | x :: rest => body x ;;; for_each rest body
  end.

(** [for x in xs: acc = body acc x], the loop's variable threaded through *)
Fixpoint for_acc {A S} (xs : list A) (body : S -> A -> M S) (acc : S) : M S :=
  match xs with
  | [] => ret acc
  | x :: rest => acc' <- body acc x ;; for_acc rest body acc'
  end.

(** ** Reading a run off the trace *)

(** The events a computation adds to the trace. *)
Definition events_of {A} (m : M A) (w : World) : list event :=
  drop (length (trace w)) (trace (snd (m w))).

(** The [sleep] durations in a stretch of the trace, in order. *)
Definition delays (t : list event) : list Q :=
  omap (fun e => match e with EvSleep s => Some s | _ => None end) t.

(** The requests sent, in order: URL and timeout. *)
Definition requests (t : list event) : list (string * Z) :=
  omap (fun e => match e with EvRequest url timeout => Some (url, timeout) | _ => None end) t.

(** The exceptions the handler of [_get] caught and printed, in order.  A
    call of [_get] failed when it printed one. *)
Definition caught (t : list event) : list exn :=
  omap (fun e => match e with EvPrintExn x => Some x | _ => None end) t.

(** ** Indexing, iterating and formatting Python values *)

Fixpoint dict_get (entries : list (string * pyval)) (key : string) : option pyval :=
  match entries with
  | [] => None
  | (k, v) :: rest => if String.eqb k key then Some v else dict_get rest key
  end.

(** [v[key]] for a string key: only a dict can be indexed by a string. *)
Definition getitem (v : pyval) (key : string) : outcome pyval :=
  match v with
  | VDict entries =>
      match dict_get entries key with
      | Some x => Returns x
      | None => Raises (KeyError key)
      end
  | VNone => Raises (TypeError "'NoneType' object is not subscriptable")
  | VBool _ => Raises (TypeError "'bool' object is not subscriptable")
  | VInt _ => Raises (TypeError "'int' object is not subscriptable")
  | VStr _ => Raises (TypeError "string indices must be integers")
  | VList _ => Raises (TypeError "list indices must be integers or slices, not str")
  end.

Fixpoint chars (s : string) : list pyval :=
  match s with
  | EmptyString => []
  | String c rest => VStr (String c EmptyString) :: chars rest
  end.

(** The items [for x in v] runs over: a list's items, a dict's keys, a
    string's characters; the other values are not iterable. *)
Definition iter (v : pyval) : outcome (list pyval) :=
  match v with
  | VList items => Returns items
  | VDict entries => Returns (map (fun kv => VStr (fst kv)) entries)
  | VStr s => Returns (chars s)
  | VNone => Raises (TypeError "'NoneType' object is not iterable")
  | VBool _ => Raises (TypeError "'bool' object is not iterable")
  | VInt _ => Raises (TypeError "'int' object is not iterable")
  end.

(** [sep.join(parts)] *)
Fixpoint join (sep : string) (parts : list string) : string :=
  match parts with
  | [] => EmptyString
  | [p] => p
  | p :: rest => p +:+ sep +:+ join sep rest
  end.

Section Script.
Context `{PyLib}.

(** How an f-string renders a value: [format(v)], which is [str(v)]. *)
Definition py_str (v : pyval) : string :=
  match v with
  | VStr s => s
  | VNone => "None"
  | VBool true => "True"
  | VBool false => "False"
  | VInt n => pretty n
  | VList _ | VDict _ => py_repr v
  end.

(** [if save_path:] -- [None] and the empty string are falsy. *)
Definition truthy (save_path : option string) : bool :=
  match save_path with
  | None => false
  | Some EmptyString => false
  | Some (String _ _) => true
  end.

(** ** Module constants *)

Definition KEYWORDS : list string := ["software"; "engineering"; "gender"; "diversity"].
Definition FIELDS_OF_STUDY : string := "Computer Science".
Definition QUERY_INFO_BY_KEYWORDS : list string :=
  ["url"; "title"; "abstract"; "authors"; "year"; "publicationTypes"; "venue"].
Definition QUERY_INFO_ABOUT_A_PAPER : list string :=
  ["url"; "title"; "abstract"; "authors"; "year"; "publicationTypes"; "citations";
   "references"; "citations.fieldsOfStudy"].
Definition SEEDING_PAPER_DIR : string := "seed papers".
Definition SNOWBALLING_PAPER_DIR : string := "snowballing papers".

(** ** class SemanticScholarQueryHelper *)

(** [SemanticScholarQueryHelper()] (lines 17-19) *)
Definition SemanticScholarQueryHelper_init : SemanticScholarQueryHelper :=
  mkHelper "http://api.semanticscholar.org/graph/v1/paper".

Section Methods.
Variable env : Env.

(** [self._sesson.get(url, timeout=timeout)] *)
Definition session_get_ (url : string) (timeout : Z) : M Response :=
  fun w =>
    let w' := emit (EvRequest url timeout) w in
    match session_get env (trace w) url timeout with
    | Responded r => (Returns r, w')
    | Failed e => (Raises e, w')
    end.

(** [response.json()] *)
Definition response_json (response : Response) : M pyval :=
  match json_loads (text response) with
  | Some v => ret v
  | None => raise (JSONDecodeError (text response))
  end.

(** [open(path, 'w')]: creates the file or truncates it to nothing. *)
Definition open_w (path : string) : M unit :=
  fun w =>
    if open_ok env (trace w) path
    then (Returns tt, set_file path EmptyString w)
    else (Raises (OSError path), w).

(** [f.write(data)] on the file opened at [path]: the data goes after what
    the file holds; when the disk has room for only part of it, that part is
    written and the write raises. *)
Definition file_write (path data : string) : M unit :=
  fun w =>
    let old := default EmptyString (files w !! path) in
    match disk_room env (trace w) path with
    | Some room =>
        if (room <? String.length data)%nat
        then (Raises (OSError path), set_file path (old +:+ String.substring 0 room data) w)
        else (Returns tt, set_file path (old +:+ data) w)
    | None => (Returns tt, set_file path (old +:+ data) w)
    end.

(** [json.dump(obj, f)] *)
Definition json_dump (obj : pyval) (path : string) : M unit :=
  file_write path (json_dumps obj).

(** The history at the moment [_get] sends its request, and at the moment
    it opens the save file. *)
Definition at_request (w : World) (url : string) : list event :=
  trace w ++ [EvPrint ("querying " +:+ url)].

Definition at_save (w : World) (url : string) : list event :=
  trace w ++ [EvPrint ("querying " +:+ url); EvRequest url 30].

(** [SemanticScholarQueryHelper._get] (lines 21-46).  The whole body stands
    in the [try]; the handler prints the exception and the method falls off
    its end, returning [None]. *)
Definition _get (url : string) (save_path : option string) : M pyval :=
  try_except
    (print ("querying " +:+ url) ;;;
     response <- session_get_ url 30 ;;
     (if truthy save_path
      then
        let path := default EmptyString save_path in
        open_w path ;;;
        obj <- response_json response ;;
        json_dump obj path
      else ret tt) ;;;
     (* Semantic Scholar: use the API endpoint up to 100 requests per 5 minutes *)
     sleep 3.5 ;;;
     response_json response)
    (fun e =>
       print_exn e ;;;
       ret VNone).

(** [SemanticScholarQueryHelper.get_top_n_paper_ids] (lines 48-70) *)
Definition get_top_n_paper_ids (self : SemanticScholarQueryHelper) (n : Z)
    (keywords : list string) (field_of_study : string) (save_path : option string)
    : M (list pyval) :=
  let url := _api self +:+ "/search?query=" +:+ join "+" keywords
             +:+ "&offset=10&limit=" +:+ pretty n
             +:+ "&fieldsOfStudy=" +:+ field_of_study
             +:+ "&fields=" +:+ join "," QUERY_INFO_BY_KEYWORDS in
  top_n_papers_json <- _get url save_path ;;
  (* get paper ID s *)
  data <- lift (getitem top_n_papers_json "data") ;;
  papers <- lift (iter data) ;;
  for_acc papers
    (fun paper_ids paper =>
       paper_id <- lift (getitem paper "paperId") ;;
       ret (paper_ids ++ [paper_id])%list)
    [].

(** [SemanticScholarQueryHelper.get_metadata] (lines 72-86) *)
Definition get_metadata (self : SemanticScholarQueryHelper) (paper_id : pyval)
    (query_parameters : list string) (save_path : option string) : M pyval :=
  let url := _api self +:+ "/" +:+ py_str paper_id
             +:+ "?fields=" +:+ join "," query_parameters in
  _get url save_path.

(** ** class SeedPaper *)

(** [[f x for x in xs]] *)
Fixpoint list_comp {A B} (xs : list A) (f : A -> M B) : M (list B) :=
  match xs with
  | [] => ret []
  | x :: rest => y <- f x ;; ys <- list_comp rest f ;; ret (y :: ys)
  end.

(** Creating an object: a reference nothing else holds. *)
Definition alloc (obj : SeedPaper) : M loc :=
  fun w =>
    let l := fresh (dom (heap w)) in
    (Returns l, mkWorld (files w) (trace w) (<[l := obj]> (heap w))).

(** Reading the object behind a reference. *)
Definition deref (self : loc) : M SeedPaper :=
  fun w =>
    match heap w !! self with
    | Some obj => (Returns obj, w)
    | None => (Raises (AttributeError "SeedPaper"), w)
    end.

(** [SeedPaper(id, query)], that is [SeedPaper.__init__] (lines 90-99): the
    object is created and [__init__] runs on it.  Nothing but [__init__]
    holds the object while it runs, so the object enters the heap when
    [__init__] returns, with its four attributes. *)
Definition SeedPaper_init (id : pyval) (query : SemanticScholarQueryHelper) : M loc :=
  let save_path := "./output/" +:+ SEEDING_PAPER_DIR +:+ "/" +:+ py_str id +:+ ".json" in
  metadata <- get_metadata query id QUERY_INFO_ABOUT_A_PAPER (Some save_path) ;;
  cs <- lift (getitem metadata "citations") ;;
  cs <- lift (iter cs) ;;
  citations_ <- list_comp cs (fun p => lift (getitem p "paperId")) ;;
  rs <- lift (getitem metadata "references") ;;
  rs <- lift (iter rs) ;;
  references_ <- list_comp rs (fun p => lift (getitem p "paperId")) ;;
  alloc (mkSeedPaper id query citations_ references_).

(** The property [citations] (lines 101-103). *)
Definition citations (self : loc) : M (list pyval) :=
  obj <- deref self ;; ret (_citations obj).

(** The property [references] (lines 105-107). *)
Definition references (self : loc) : M (list pyval) :=
  obj <- deref self ;; ret (_references obj).

(** [SeedPaper.snowballing] (lines 110-120): backward and forward *)
Definition snowballing (self : loc) : M unit :=
  (* backward *)
  ids <- references self ;;
  for_each ids (fun id =>
    let save_path := "./output/" +:+ SNOWBALLING_PAPER_DIR +:+ "/" +:+ py_str id +:+ ".json" in
    obj <- deref self ;;
    get_metadata (_query obj) id QUERY_INFO_ABOUT_A_PAPER (Some save_path) ;;;  (* ignore return val *)
    ret tt) ;;;
  (* forward *)
  ids <- citations self ;;
  for_each ids (fun id =>
    let save_path := "./output/" +:+ SNOWBALLING_PAPER_DIR +:+ "/" +:+ py_str id +:+ ".json" in
    obj <- deref self ;;
    get_metadata (_query obj) id QUERY_INFO_ABOUT_A_PAPER (Some save_path) ;;;  (* ignore return val *)
    ret tt).

(** ** The script's main block (lines 123-132) *)

Definition TOP_N_PAPERS : Z := 5.

Definition main : M unit :=
  let db_query := SemanticScholarQueryHelper_init in
  (* Get paper ids of the top n papers from Semantic Scholar by keywords and fields of study *)
  let top_n_save_path := "./output/top_" +:+ pretty TOP_N_PAPERS +:+ "_papers_about_"
                         +:+ join "_" KEYWORDS +:+ ".json" in
  ids <- get_top_n_paper_ids db_query TOP_N_PAPERS KEYWORDS FIELDS_OF_STUDY (Some top_n_save_path) ;;
  papers <- list_comp ids (fun p => SeedPaper_init p db_query) ;;
  (* Do snowballing with the top n papers *)
  for_each papers snowballing.

(** ** Notions the properties are stated with *)

(** Whether the disk takes all of [data] at [path]. *)
Definition room_for (t : list event) (path data : string) : bool :=
  match disk_room env t path with
  | Some room => negb (room <? String.length data)%nat
  | None => true
  end.

(** Whether a call of [_get] gets as far as its [sleep] statement: the
    request is answered and, when a save path is given, opening the file,
    decoding the response and writing it raise nothing. *)
Definition reaches_sleep (url : string) (save_path : option string) (w : World) : bool :=
  match session_get env (at_request w url) url 30 with
  | Failed _ => false
  | Responded r =>
      if truthy save_path then
        let path := default EmptyString save_path in
        open_ok env (at_save w url) path &&
        match json_loads (text r) with
        | Some v => room_for (at_save w url) path (json_dumps v)
        | None => false
        end
      else true
  end.

(** The URL of a search. *)
Definition search_url (self : SemanticScholarQueryHelper) (n : Z) (keywords : list string)
    (field_of_study : string) : string :=
  _api self +:+ "/search?query=" +:+ join "+" keywords
  +:+ "&offset=10&limit=" +:+ pretty n
  +:+ "&fieldsOfStudy=" +:+ field_of_study
  +:+ "&fields=url,title,abstract,authors,year,publicationTypes,venue".

(** The URL of a single-paper request and the two kinds of save path. *)
Definition paper_url (self : SemanticScholarQueryHelper) (paper_id : pyval)
    (fields : list string) : string :=
  _api self +:+ "/" +:+ py_str paper_id +:+ "?fields=" +:+ join "," fields.

Definition seed_path (id : pyval) : string :=
  "./output/seed papers/" +:+ py_str id +:+ ".json".

Definition snowball_path (id : pyval) : string :=
  "./output/snowballing papers/" +:+ py_str id +:+ ".json".

(** One fetch of snowballing: the world after it; what it returns is dropped. *)
Definition snowball_fetch (query : SemanticScholarQueryHelper) (w : World) (id : pyval) : World :=
  snd (get_metadata query id QUERY_INFO_ABOUT_A_PAPER (Some (snowball_path id)) w).

(** [entry['paperId'] = id] *)
Definition has_paperId (entry id : pyval) : Prop :=
  getitem entry "paperId" = Returns id.

(** The operations of the two classes, to speak of whatever a program does
    with them after a seed paper was built. *)
Inductive call : Type :=
| CallGet (url : string) (save_path : option string)
| CallTopN (self : SemanticScholarQueryHelper) (n : Z) (keywords : list string)
    (field_of_study : string) (save_path : option string)
| CallMetadata (self : SemanticScholarQueryHelper) (paper_id : pyval)
    (query_parameters : list string) (save_path : option string)
| CallSeedPaper (id : pyval) (query : SemanticScholarQueryHelper)
| CallCitations (self : loc)
| CallReferences (self : loc)
| CallSnowballing (self : loc).

(** The world after a call, whether it returned or raised. *)
Definition run_call (w : World) (c : call) : World :=
  match c with
  | CallGet url save_path => snd (_get url save_path w)
  | CallTopN self n keywords field_of_study save_path =>
      snd (get_top_n_paper_ids self n keywords field_of_study save_path w)
  | CallMetadata self paper_id query_parameters save_path =>
      snd (get_metadata self paper_id query_parameters save_path w)
  | CallSeedPaper id query => snd (SeedPaper_init id query w)
  | CallCitations self => snd (citations self w)
  | CallReferences self => snd (references self w)
  | CallSnowballing self => snd (snowballing self w)
  end.

Definition run_calls (w : World) (cs : list call) : World := foldl run_call w cs.

End Methods.

End Script.

(** The same environment with every status code [s] of a response replaced
    by [f s]. *)
Definition restatus (f : Z -> Z) (env : Env) : Env :=
  mkEnv
    (fun t url timeout =>
       match session_get env t url timeout with
       | Responded r => Responded (mkResponse (f (status_code r)) (text r))
       | Failed e => Failed e
       end)
    (open_ok env) (disk_room env).

(** ** The JSON codec

    Python's [json] as the script uses it, on the values of the model:
    [json.dump] with its defaults (a comma and a space between items, a colon
    and a space after a key, every character outside the printable ASCII
    range escaped) and the decoder behind [Response.json()].  A character of
    a string is a code point below 256; text that decodes to a number with a
    fraction or an exponent, or to a code point from 256 on, is outside the
    model and read as undecodable.  [repr] puts a string between single
    quotes as it is. *)
Module PlainJson.

Definition dq : ascii := "034"%char.
Definition backslash : ascii := "092"%char.

Definition code (c : ascii) : N := N_of_ascii c.

Definition hex_char (n : N) : ascii :=
  match n with
  | 0 => "0" | 1 => "1" | 2 => "2" | 3 => "3" | 4 => "4" | 5 => "5" | 6 => "6"
  | 7 => "7" | 8 => "8" | 9 => "9" | 10 => "a" | 11 => "b" | 12 => "c"
  | 13 => "d" | 14 => "e" | _ => "f"
  end%N%char.

(** One character of a string as [json.dump] writes it. *)
Definition escape_char (c : ascii) : string :=
  if Ascii.eqb c dq then String backslash (String dq EmptyString)
  else if Ascii.eqb c backslash then String backslash (String backslash EmptyString)
  else if Ascii.eqb c "010" then String backslash "n"
  else if Ascii.eqb c "013" then String backslash "r"
  else if Ascii.eqb c "009" then String backslash "t"
  else if Ascii.eqb c "008" then String backslash "b"
  else if Ascii.eqb c "012" then String backslash "f"
  else if (code c <? 32)%N || (126 <? code c)%N then
    String backslash
      ("u00" +:+ String (hex_char (code c / 16)) (String (hex_char (code c mod 16)) EmptyString))
  else String c EmptyString.

Fixpoint escape (s : string) : string :=
  match s with
  | EmptyString => EmptyString
  | String c rest => escape_char c +:+ escape rest
  end.

Definition quote (s : string) : string :=
  String dq (escape s +:+ String dq EmptyString).

Fixpoint dumps (v : pyval) : string :=
  match v with
  | VNone => "null"
  | VBool true => "true"
  | VBool false => "false"
  | VInt n => pretty n
  | VStr s => quote s
  | VList items => "[" +:+ join ", " (map dumps items) +:+ "]"
  | VDict entries =>
      "{" +:+ join ", " (map (fun kv => quote (fst kv) +:+ ": " +:+ dumps (snd kv)) entries) +:+ "}"
  end.

Fixpoint repr (v : pyval) : string :=
  match v with
  | VNone => "None"
  | VBool true => "True"
  | VBool false => "False"
  | VInt n => pretty n
  | VStr s => "'" +:+ s +:+ "'"
  | VList items => "[" +:+ join ", " (map repr items) +:+ "]"
  | VDict entries =>
      "{" +:+ join ", " (map (fun kv => "'" +:+ fst kv +:+ "': " +:+ repr (snd kv)) entries) +:+ "}"
  end.

Definition is_ws (c : ascii) : bool :=
  Ascii.eqb c " " || Ascii.eqb c "009" || Ascii.eqb c "010" || Ascii.eqb c "013".

Fixpoint skip_ws (s : string) : string :=
  match s with
  | String c rest => if is_ws c then skip_ws rest else s
  | EmptyString => s
  end.

(** [strip lit s]: [s] without its prefix [lit], when it starts with it. *)
Fixpoint strip (lit s : string) : option string :=
  match lit, s with
  | EmptyString, _ => Some s
  | String a lit', String b s' => if Ascii.eqb a b then strip lit' s' else None
  | String _ _, EmptyString => None
  end.

Definition digit (c : ascii) : option N :=
  if (48 <=? code c)%N && (code c <=? 57)%N then Some (code c - 48)%N else None.

Fixpoint parse_digits (s : string) (acc : N) : N * string :=
  match s with
  | String c rest =>
      match digit c with
      | Some d => parse_digits rest (10 * acc + d)%N
      | None => (acc, s)
      end
  | EmptyString => (acc, s)
  end.

(** The digits of an integer: a lone zero, or digits that start with none. *)
Definition parse_nat (s : string) : option (N * string) :=
  match s with
  | String c rest =>
      match digit c with
      | Some 0%N => Some (0%N, rest)
      | Some _ => Some (parse_digits s 0)
      | None => None
      end
  | EmptyString => None
  end.

(** Whether a fraction or an exponent follows: the number is a float. *)
Definition starts_fraction (s : string) : bool :=
  match s with
  | String c _ => Ascii.eqb c "." || Ascii.eqb c "e" || Ascii.eqb c "E"
  | EmptyString => false
  end.

Definition parse_int (s : string) : option (Z * string) :=
  match s with
  | String c rest =>
      if Ascii.eqb c "-" then
        match parse_nat rest with
        | Some (n, r) => if starts_fraction r then None else Some (- Z.of_N n, r)
        | None => None
        end
      else
        match parse_nat s with
        | Some (n, r) => if starts_fraction r then None else Some (Z.of_N n, r)
        | None => None
        end
  | EmptyString => None
  end.

Definition hex_value (c : ascii) : option N :=
  if (48 <=? code c)%N && (code c <=? 57)%N then Some (code c - 48)%N
  else if (97 <=? code c)%N && (code c <=? 102)%N then Some (code c - 87)%N
  else if (65 <=? code c)%N && (code c <=? 70)%N then Some (code c - 55)%N
  else None.

(** The code point of [\uXXXX], when it is below 256. *)
Definition code_point (h1 h2 h3 h4 : ascii) : option ascii :=
  match hex_value h1, hex_value h2, hex_value h3, hex_value h4 with
  | Some a, Some b, Some c, Some d =>
      let n := (((a * 16 + b) * 16 + c) * 16 + d)%N in
      if (n <? 256)%N then Some (ascii_of_N n) else None
  | _, _, _, _ => None
  end.

(** The character a backslash and [e] stand for, [\u] apart. *)
Definition simple_escape (e : ascii) : option ascii :=
  if Ascii.eqb e dq then Some dq
  else if Ascii.eqb e backslash then Some backslash
  else if Ascii.eqb e "/" then Some "/"%char
  else if Ascii.eqb e "b" then Some "008"%char
  else if Ascii.eqb e "f" then Some "012"%char
  else if Ascii.eqb e "n" then Some "010"%char
  else if Ascii.eqb e "r" then Some "013"%char
  else if Ascii.eqb e "t" then Some "009"%char
  else None.

Definition prepend (c : ascii) (parsed : option (string * string)) : option (string * string) :=
  match parsed with
  | Some (str, r) => Some (String c str, r)
  | None => None
  end.

(** The text of a string literal after its opening quote.  A control
    character must come escaped. *)
Fixpoint parse_string (s : string) : option (string * string) :=
  match s with
  | EmptyString => None
  | String c rest =>
      if Ascii.eqb c dq then Some (EmptyString, rest)
      else if Ascii.eqb c backslash then
        match rest with
        | String e rest' =>
            match simple_escape e with
            | Some x => prepend x (parse_string rest')
            | None =>
                if Ascii.eqb e "u" then
                  match rest' with
                  | String h1 (String h2 (String h3 (String h4 rest''))) =>
                      match code_point h1 h2 h3 h4 with
                      | Some x => prepend x (parse_string rest'')
                      | None => None
                      end
                  | _ => None
                  end
                else None
            end
        | EmptyString => None
        end
      else if (code c <? 32)%N then None
      else prepend c (parse_string rest)
  end.

(** A key that is given again keeps its place and takes the new value. *)
Fixpoint dict_set (entries : list (string * pyval)) (key : string) (v : pyval)
    : list (string * pyval) :=
  match entries with
  | [] => [(key, v)]
  | (k, x) :: rest =>
      if String.eqb k key then (k, v) :: rest else (k, x) :: dict_set rest key v
  end.

Section Items.
Variable parse_value : string -> option (pyval * string).

(** The items of an array after the first bracket, up to the closing one. *)
Fixpoint parse_elements (fuel : nat) (s : string) (acc : list pyval)
    : option (list pyval * string) :=
  match fuel with
  | O => None
  | S fuel =>
      match parse_value s with
      | Some (v, r) =>
          match skip_ws r with
          | String c r' =>
              if Ascii.eqb c "," then parse_elements fuel r' (acc ++ [v])
              else if Ascii.eqb c "]" then Some (acc ++ [v], r')
              else None
          | EmptyString => None
          end
      | None => None
      end
  end.

(** The members of an object after the brace, up to the closing one. *)
Fixpoint parse_members (fuel : nat) (s : string) (acc : list (string * pyval))
    : option (list (string * pyval) * string) :=
  match fuel with
  | O => None
  | S fuel =>
      match strip (String dq EmptyString) (skip_ws s) with
      | Some r =>
          match parse_string r with
          | Some (key, r) =>
              match strip ":" (skip_ws r) with
              | Some r =>
                  match parse_value r with
                  | Some (v, r) =>
                      match skip_ws r with
                      | String c r' =>
                          if Ascii.eqb c "," then parse_members fuel r' (dict_set acc key v)
                          else if Ascii.eqb c "}" then Some (dict_set acc key v, r')
                          else None
                      | EmptyString => None
                      end
                  | None => None
                  end
              | None => None
              end
          | None => None
          end
      | None => None
      end
  end.

End Items.

Fixpoint parse_value (fuel : nat) (s : string) : option (pyval * string) :=
  match fuel with
  | O => None
  | S fuel =>
      let s := skip_ws s in
      match s with
      | EmptyString => None
      | String c rest =>
          if Ascii.eqb c dq then
            match parse_string rest with
            | Some (str, r) => Some (VStr str, r)
            | None => None
            end
          else if Ascii.eqb c "[" then
            match strip "]" (skip_ws rest) with
            | Some r => Some (VList [], r)
            | None =>
                match parse_elements (parse_value fuel) fuel rest [] with
                | Some (items, r) => Some (VList items, r)
                | None => None
                end
            end
          else if Ascii.eqb c "{" then
            match strip "}" (skip_ws rest) with
            | Some r => Some (VDict [], r)
            | None =>
                match parse_members (parse_value fuel) fuel rest [] with
                | Some (entries, r) => Some (VDict entries, r)
                | None => None
                end
            end
          else
            match strip "null" s, strip "true" s, strip "false" s with
            | Some r, _, _ => Some (VNone, r)
            | _, Some r, _ => Some (VBool true, r)
            | _, _, Some r => Some (VBool false, r)
            | _, _, _ =>
                match parse_int s with
                | Some (n, r) => Some (VInt n, r)
                | None => None
                end
            end
      end
  end.

Definition loads (s : string) : option pyval :=
  match parse_value (S (String.length s)) s with
  | Some (v, r) =>
      match skip_ws r with
      | EmptyString => Some v
      | String _ _ => None
      end
  | None => None
  end.





Definition lib : PyLib := mkPyLib loads dumps repr.

End PlainJson.

(** ** Environments and worlds to run the script in *)

(** An environment that always answers the same way. *)
Definition steady (answer : reply) (openable : bool) (room : option nat) : Env :=
  mkEnv (fun _ _ _ => answer) (fun _ _ => openable) (fun _ _ => room).

(** The service answers every request with [body] under status [status];
    files can be written. *)
Definition serving (status : Z) (body : string) : Env :=
  steady (Responded (mkResponse status body)) true None.

(** No connection, and no answer within the timeout. *)
Definition offline : Env := steady (Failed (ConnectionError "unreachable")) true None.
Definition stalled : Env := steady (Failed (ReadTimeout 30)) true None.

Definition empty_world : World := mkWorld ∅ [] ∅.

(** A world where [path] already holds [content]. *)
Definition world_with_file (path content : string) : World :=
  mkWorld {[ path := content ]} [] ∅.

(** The text of a JSON string literal, and of the mocked bodies. *)
Definition lit (s : string) : string := PlainJson.quote s.

Definition search_body : string :=
  "{" +:+ lit "data" +:+ ": [{" +:+ lit "paperId" +:+ ": " +:+ lit "A1" +:+ "}, {"
      +:+ lit "paperId" +:+ ": " +:+ lit "B2" +:+ "}]}".

Definition paper_body : string :=
  "{" +:+ lit "citations" +:+ ": [{" +:+ lit "paperId" +:+ ": " +:+ lit "C1" +:+ "}], "
      +:+ lit "references" +:+ ": [{" +:+ lit "paperId" +:+ ": " +:+ lit "R1" +:+ "}]}".

(** A search response with three records: the second identifier is the
    empty string, the third is [null]. *)
Definition crowded_body : string :=
  "{" +:+ lit "data" +:+ ": [{" +:+ lit "paperId" +:+ ": " +:+ lit "A1" +:+ "}, {"
      +:+ lit "paperId" +:+ ": " +:+ lit EmptyString +:+ "}, {"
      +:+ lit "paperId" +:+ ": null}]}".

(** What the mocked paper response decodes to. *)
Definition paper_record : pyval :=
  VDict [("citations", VList [VDict [("paperId", VStr "C1")]]);
         ("references", VList [VDict [("paperId", VStr "R1")]])].

(** The body of an error response. *)
Definition not_found_body : string :=
  "{" +:+ lit "error" +:+ ": " +:+ lit "Paper not found" +:+ "}".

(** The paper A1 of the mocked response, once built. *)
Definition paperA1 : SeedPaper :=
  mkSeedPaper (VStr "A1") SemanticScholarQueryHelper_init [VStr "C1"] [VStr "R1"].

(** The world after [SeedPaper("A1", query)] against the mocked service. *)
Definition seeded_world : World :=
  snd (SeedPaper_init (H := PlainJson.lib) (serving 200 paper_body) (VStr "A1")
         SemanticScholarQueryHelper_init empty_world).

Definition url_A1 : string := "http://api.semanticscholar.org/graph/v1/paper/A1?fields=url".

(** [entry['paperId']], for an entry that has one. *)
Definition paperId_of (entry : pyval) : pyval :=
  match getitem entry "paperId" with
  | Returns id => id
  | Raises _ => VNone
  end.

(** A paper response with three citations and two references, some of them
    the same paper. *)
Definition busy_paper_record : pyval :=
  VDict [("citations", VList [VDict [("paperId", VStr "C2")];
                               VDict [("paperId", VStr "C1")];
                               VDict [("paperId", VStr "C2")]]);
         ("references", VList [VDict [("paperId", VStr "R1")];
                                VDict [("paperId", VStr "R1")]])].

Definition busy_paper_body : string := PlainJson.dumps busy_paper_record.

(** ** Notions for whole runs *)

(** A stretch of the trace keeps to the throttle when every delay in it is
    the 3.5 of [_get], there is at most one delay per request, and every
    request carries the timeout of 30. *)
Definition throttled (t : list event) : Prop :=
  Forall (fun d => d = 3.5%Q) (delays t)
  /\ (length (delays t) <= length (requests t))%nat
  /\ Forall (fun r => snd r = 30) (requests t).

(** What the main block asks for: its search, the fetch of each seed paper,
    the fetches of the snowballing of one paper. *)
Definition main_search : string * Z :=
  (search_url SemanticScholarQueryHelper_init TOP_N_PAPERS KEYWORDS FIELDS_OF_STUDY, 30).

Definition top_n_save_path : string :=
  "./output/top_5_papers_about_software_engineering_gender_diversity.json".

Definition seed_requests `{PyLib} (query : SemanticScholarQueryHelper) (ids : list pyval)
    : list (string * Z) :=
  map (fun id => (paper_url query id QUERY_INFO_ABOUT_A_PAPER, 30)) ids.

Definition snowball_requests `{PyLib} (obj : SeedPaper) : list (string * Z) :=
  seed_requests (_query obj) (_references obj ++ _citations obj).



(** The mocked service: the search is answered with the two records of A1
    and B2, every paper with the mocked paper response. *)
Definition mock_service : Env :=
  mkEnv
    (fun _ url _ =>
       if String.prefix "http://api.semanticscholar.org/graph/v1/paper/search" url
       then Responded (mkResponse 200 search_body)
       else Responded (mkResponse 200 paper_body))
    (fun _ _ => true) (fun _ _ => None).

(** * Properties *)

(** ** Running the monad *)

Lemma bind_run {A B} (m : M A) (k : A -> M B) w :
  bind m k w =
    match m w with
    | (Returns a, w') => k a w'
    | (Raises e, w') => (Raises e, w')
    end.
Proof. reflexivity. Qed.

Lemma lift_run {A} (o : outcome A) w : lift o w = (o, w).
Proof. reflexivity. Qed.

Lemma ret_run {A} (a : A) w : ret a w = (Returns a, w).
Proof. reflexivity. Qed.

Ltac unfold_m :=
  unfold _get, try_except, bind, ret, raise, lift, print, print_exn, sleep,
    session_get_, open_w, json_dump, file_write, response_json, emit, set_file,
    at_request, at_save in *;
  cbn [trace files heap fst snd] in *.

Ltac mcbn := cbn -[Nat.ltb String.length String.substring].

Ltac norm_trace :=
  repeat (progress (cbn [trace files heap fst snd app]; rewrite <- ?app_assoc)).

Section QueryClient.
Context `{PyLib}.
Variable env : Env.

(** ** How a call of [_get] can go *)

Lemma get_request_failed url save_path w e :
  session_get env (at_request w url) url 30 = Failed e ->
  _get env url save_path w =
    (Returns VNone,
     mkWorld (files w)
       (trace w ++ [EvPrint ("querying " +:+ url); EvRequest url 30; EvPrintExn e])
       (heap w)).
Proof.
  intros Hreq. unfold_m. rewrite Hreq. norm_trace. reflexivity.
Qed.

Lemma get_not_saving url save_path w r :
  session_get env (at_request w url) url 30 = Responded r ->
  truthy save_path = false ->
  _get env url save_path w =
    match json_loads (text r) with
    | Some v =>
        (Returns v,
         mkWorld (files w)
           (trace w ++ [EvPrint ("querying " +:+ url); EvRequest url 30; EvSleep 3.5])
           (heap w))
    | None =>
        (Returns VNone,
         mkWorld (files w)
           (trace w ++ [EvPrint ("querying " +:+ url); EvRequest url 30; EvSleep 3.5;
                        EvPrintExn (JSONDecodeError (text r))])
           (heap w))
    end.
Proof.
  intros Hreq Hsp. unfold_m. rewrite Hreq, Hsp. mcbn.
  destruct (json_loads (text r)); mcbn; norm_trace; reflexivity.
Qed.

Lemma truthy_Some save_path :
  truthy save_path = true ->
  exists c p, save_path = Some (String c p).
Proof.
  destruct save_path as [[|c p]|]; mcbn; try discriminate. eauto.
Qed.

Lemma get_open_failed url path w r :
  session_get env (at_request w url) url 30 = Responded r ->
  truthy (Some path) = true ->
  open_ok env (at_save w url) path = false ->
  _get env url (Some path) w =
    (Returns VNone,
     mkWorld (files w)
       (trace w ++ [EvPrint ("querying " +:+ url); EvRequest url 30;
                    EvPrintExn (OSError path)])
       (heap w)).
Proof.
  intros Hreq Hsp Hopen. unfold_m. rewrite Hreq, Hsp. mcbn.
  norm_trace. rewrite Hopen. mcbn. norm_trace. reflexivity.
Qed.

Lemma get_decode_failed_saving url path w r :
  session_get env (at_request w url) url 30 = Responded r ->
  truthy (Some path) = true ->
  open_ok env (at_save w url) path = true ->
  json_loads (text r) = None ->
  _get env url (Some path) w =
    (Returns VNone,
     mkWorld (<[path := EmptyString]> (files w))
       (trace w ++ [EvPrint ("querying " +:+ url); EvRequest url 30;
                    EvPrintExn (JSONDecodeError (text r))])
       (heap w)).
Proof.
  intros Hreq Hsp Hopen Hdec. unfold_m. rewrite Hreq, Hsp. mcbn.
  norm_trace. rewrite Hopen. mcbn. rewrite Hdec. mcbn. norm_trace. reflexivity.
Qed.

Lemma get_write_failed url path w r v room :
  session_get env (at_request w url) url 30 = Responded r ->
  truthy (Some path) = true ->
  open_ok env (at_save w url) path = true ->
  json_loads (text r) = Some v ->
  disk_room env (at_save w url) path = Some room ->
  (room < String.length (json_dumps v))%nat ->
  _get env url (Some path) w =
    (Returns VNone,
     mkWorld (<[path := String.substring 0 room (json_dumps v)]> (files w))
       (trace w ++ [EvPrint ("querying " +:+ url); EvRequest url 30;
                    EvPrintExn (OSError path)])
       (heap w)).
Proof.
  intros Hreq Hsp Hopen Hdec Hroom Hlt. unfold_m. rewrite Hreq, Hsp. mcbn.
  norm_trace. rewrite Hopen. mcbn. rewrite Hdec. mcbn. rewrite Hroom.
  apply Nat.ltb_lt in Hlt. rewrite Hlt. mcbn.
  rewrite lookup_insert_eq, insert_insert_eq. mcbn. norm_trace. reflexivity.
Qed.

Lemma get_saved url path w r v :
  session_get env (at_request w url) url 30 = Responded r ->
  truthy (Some path) = true ->
  open_ok env (at_save w url) path = true ->
  json_loads (text r) = Some v ->
  room_for env (at_save w url) path (json_dumps v) = true ->
  _get env url (Some path) w =
    (Returns v,
     mkWorld (<[path := json_dumps v]> (files w))
       (trace w ++ [EvPrint ("querying " +:+ url); EvRequest url 30; EvSleep 3.5])
       (heap w)).
Proof.
  intros Hreq Hsp Hopen Hdec Hroom. unfold room_for in Hroom. unfold_m.
  rewrite Hreq, Hsp. mcbn. norm_trace. rewrite Hopen. mcbn. rewrite Hdec. mcbn.
  destruct (disk_room env _ path) as [room|].
  - apply negb_true_iff in Hroom. rewrite Hroom. mcbn.
    rewrite lookup_insert_eq, insert_insert_eq. mcbn.
    norm_trace. reflexivity.
  - mcbn. rewrite lookup_insert_eq, insert_insert_eq. mcbn.
    norm_trace. reflexivity.
Qed.

(** Every call of [_get] returns: it prints the query, sends one request,
    sleeps when it gets that far, and prints the exception when one was
    raised on the way. *)
Lemma get_run url save_path w :
  exists v fs post,
    _get env url save_path w =
      (Returns v,
       mkWorld fs
         (trace w ++ EvPrint ("querying " +:+ url) :: EvRequest url 30 :: post)
         (heap w))
    /\ post = (if reaches_sleep env url save_path w then [EvSleep 3.5] else [])
              ++ map EvPrintExn (caught post)
    /\ (reaches_sleep env url save_path w = false -> exists e, caught post = [e])
    /\ (caught post = [] \/ v = VNone).
Proof.
  unfold reaches_sleep.
  destruct (session_get env (at_request w url) url 30) as [r|e] eqn:Hreq.
  2:{ rewrite (get_request_failed url save_path w e Hreq).
      do 3 eexists; repeat split; eauto. }
  destruct (truthy save_path) eqn:Hsp.
  2:{ rewrite (get_not_saving url save_path w r Hreq Hsp).
      destruct (json_loads (text r)); do 3 eexists;
        (split; [reflexivity|]); repeat split; eauto; discriminate. }
  destruct (truthy_Some _ Hsp) as (c & p & ->).
  change (default EmptyString (Some (String c p))) with (String c p).
  destruct (open_ok env (at_save w url) (String c p)) eqn:Hopen.
  2:{ rewrite (get_open_failed url _ w r Hreq Hsp Hopen).
      do 3 eexists; repeat split; eauto. }
  destruct (json_loads (text r)) as [v|] eqn:Hdec.
  2:{ rewrite (get_decode_failed_saving url _ w r Hreq Hsp Hopen Hdec).
      do 3 eexists; repeat split; eauto. }
  cbn [andb].
  destruct (room_for env (at_save w url) (String c p) (json_dumps v)) eqn:Hroom.
  { rewrite (get_saved url _ w r v Hreq Hsp Hopen Hdec Hroom).
    do 3 eexists; (split; [reflexivity|]); repeat split; eauto; discriminate. }
  unfold room_for in Hroom.
  destruct (disk_room env (at_save w url) (String c p)) as [room|] eqn:Hd; [|discriminate].
  apply negb_false_iff, Nat.ltb_lt in Hroom.
  rewrite (get_write_failed url _ w r v room Hreq Hsp Hopen Hdec Hd Hroom).
  do 3 eexists; repeat split; eauto.
Qed.

Lemma events_of_app {A} (m : M A) w a fs post h :
  m w = (a, mkWorld fs (trace w ++ post) h) ->
  events_of m w = post.
Proof.
  intros Hm. unfold events_of. rewrite Hm. cbn. apply drop_app_length.
Qed.

Lemma get_returns url save_path w :
  exists v, fst (_get env url save_path w) = Returns v.
Proof.
  destruct (get_run url save_path w) as (v & fs & post & Hget & _).
  exists v. rewrite Hget. reflexivity.
Qed.

Lemma get_heap url save_path w :
  heap (snd (_get env url save_path w)) = heap w.
Proof.
  destruct (get_run url save_path w) as (v & fs & post & Hget & _).
  rewrite Hget. reflexivity.
Qed.

Lemma get_trace url save_path w :
  trace (snd (_get env url save_path w)) =
    trace w ++ events_of (_get env url save_path) w.
Proof.
  destruct (get_run url save_path w) as (v & fs & post & Hget & _).
  rewrite (events_of_app _ _ _ _ _ _ Hget), Hget. reflexivity.
Qed.

Lemma requests_app t1 t2 : requests (t1 ++ t2) = requests t1 ++ requests t2.
Proof. apply omap_app. Qed.

Lemma delays_app t1 t2 : delays (t1 ++ t2) = delays t1 ++ delays t2.
Proof. apply omap_app. Qed.

Lemma caught_app t1 t2 : caught (t1 ++ t2) = caught t1 ++ caught t2.
Proof. apply omap_app. Qed.

Lemma requests_printed xs : requests (map EvPrintExn xs) = [].
Proof. induction xs; cbn; auto. Qed.

Lemma delays_printed xs : delays (map EvPrintExn xs) = [].
Proof. induction xs; cbn; auto. Qed.

Lemma get_requests url save_path w :
  requests (events_of (_get env url save_path) w) = [(url, 30)].
Proof.
  destruct (get_run url save_path w) as (v & fs & post & Hget & Hpost & _).
  rewrite (events_of_app _ _ _ _ _ _ Hget). cbn. f_equal.
  rewrite Hpost, requests_app, requests_printed.
  destruct (reaches_sleep env url save_path w); reflexivity.
Qed.

(** X1.  Every call of [_get] returns a value -- no exception leaves it --
    and has sent exactly one request, with the timeout of 30: nothing is
    retried, whether the call succeeded or failed. *)
Theorem get_returns_after_one_request url save_path w :
  (exists v, fst (_get env url save_path w) = Returns v)
  /\ requests (events_of (_get env url save_path) w) = [(url, 30)]
  /\ heap (snd (_get env url save_path w)) = heap w.
Proof.
  split; [apply get_returns|]. split; [apply get_requests | apply get_heap].
Qed.

(** ** The delay *)


(** ** Failures of the request *)

(** C7.  When the request raises -- a network error, or no answer within the
    timeout of 30 -- [_get] catches the exception, prints it and returns
    [None]: the call returns rather than raises, exactly one request was
    sent, no file is touched and nothing else happens. *)
Theorem get_absorbs_request_error url save_path w e :
  session_get env (at_request w url) url 30 = Failed e ->
  _get env url save_path w =
    (Returns VNone,
     mkWorld (files w)
       (trace w ++ [EvPrint ("querying " +:+ url); EvRequest url 30; EvPrintExn e])
       (heap w))
  /\ requests (events_of (_get env url save_path) w) = [(url, 30)]
  /\ caught (events_of (_get env url save_path) w) = [e].
Proof.
  intros Hreq. pose proof (get_request_failed url save_path w e Hreq) as Hget.
  split; [exact Hget|]. rewrite (events_of_app _ _ _ _ _ _ Hget). split; reflexivity.
Qed.

(** ** The save file *)

(** C2, as amended.  Take a call with a save path whose fetch fails: the
    request raises, or the body of the response does not decode.  When the
    request raises, no file is created or modified.  When the body does not
    decode, nothing is written, but the save file was opened for writing
    before the decoding: if the path is not empty and the file could be
    opened, it now exists and is empty; otherwise the files are as before. *)
Theorem get_failed_fetch_files url path w :
  (forall r, session_get env (at_request w url) url 30 = Responded r ->
             json_loads (text r) = None) ->
  match session_get env (at_request w url) url 30 with
  | Failed _ => files (snd (_get env url (Some path) w)) = files w
  | Responded _ =>
      files (snd (_get env url (Some path) w)) =
        if truthy (Some path) && open_ok env (at_save w url) path
        then <[path := EmptyString]> (files w)
        else files w
  end.
Proof.
  intros Hfetch.
  destruct (session_get env (at_request w url) url 30) as [r|e] eqn:Hreq.
  - specialize (Hfetch r eq_refl).
    destruct (truthy (Some path)) eqn:Hsp.
    + destruct (open_ok env (at_save w url) path) eqn:Hopen.
      * rewrite (get_decode_failed_saving url path w r Hreq Hsp Hopen Hfetch).
        reflexivity.
      * rewrite (get_open_failed url path w r Hreq Hsp Hopen). reflexivity.
    + rewrite (get_not_saving url (Some path) w r Hreq Hsp), Hfetch. reflexivity.
  - rewrite (get_request_failed url (Some path) w e Hreq). reflexivity.
Qed.

(** How a call that printed no exception went, when it had a save path. *)
Lemma get_succeeded_saving url path w :
  path <> EmptyString ->
  caught (events_of (_get env url (Some path)) w) = [] ->
  exists r v,
    session_get env (at_request w url) url 30 = Responded r
    /\ json_loads (text r) = Some v
    /\ _get env url (Some path) w =
         (Returns v,
          mkWorld (<[path := json_dumps v]> (files w))
            (trace w ++ [EvPrint ("querying " +:+ url); EvRequest url 30; EvSleep 3.5])
            (heap w)).
Proof.
  intros Hpath Hnone.
  assert (Hsp : truthy (Some path) = true) by (destruct path; [congruence|reflexivity]).
  destruct (session_get env (at_request w url) url 30) as [r|e] eqn:Hreq.
  2:{ pose proof (get_request_failed url (Some path) w e Hreq) as Hget.
      rewrite (events_of_app _ _ _ _ _ _ Hget) in Hnone. discriminate. }
  destruct (open_ok env (at_save w url) path) eqn:Hopen.
  2:{ pose proof (get_open_failed url path w r Hreq Hsp Hopen) as Hget.
      rewrite (events_of_app _ _ _ _ _ _ Hget) in Hnone. discriminate. }
  destruct (json_loads (text r)) as [v|] eqn:Hdec.
  2:{ pose proof (get_decode_failed_saving url path w r Hreq Hsp Hopen Hdec) as Hget.
      rewrite (events_of_app _ _ _ _ _ _ Hget) in Hnone. discriminate. }
  destruct (room_for env (at_save w url) path (json_dumps v)) eqn:Hroom.
  { exists r, v. repeat split; auto. apply (get_saved url path w r v); auto. }
  unfold room_for in Hroom.
  destruct (disk_room env (at_save w url) path) as [room|] eqn:Hd; [|discriminate].
  apply negb_false_iff, Nat.ltb_lt in Hroom.
  pose proof (get_write_failed url path w r v room Hreq Hsp Hopen Hdec Hd Hroom) as Hget.
  rewrite (events_of_app _ _ _ _ _ _ Hget) in Hnone. discriminate.
Qed.

(** ** Status codes *)

(** C9.  [_get] never looks at the status code of a response: whatever the
    statuses of the responses are changed to (every 404 or 429 to 200, say),
    the call returns the same value and leaves the same files and the same
    trace.  So a response of any status whose body decodes is returned,
    decoded, with no exception caught, and is saved at the save path when one
    is given and saving raises nothing. *)
Theorem get_ignores_status (f : Z -> Z) url save_path w :
  _get (restatus f env) url save_path w = _get env url save_path w
  /\ (forall r v,
        session_get env (at_request w url) url 30 = Responded r ->
        json_loads (text r) = Some v ->
        reaches_sleep env url save_path w = true ->
        fst (_get env url save_path w) = Returns v
        /\ caught (events_of (_get env url save_path) w) = []
        /\ (forall path, save_path = Some path -> path <> EmptyString ->
              files (snd (_get env url save_path w)) !! path = Some (json_dumps v))).
Proof.
  split.
  { unfold_m. unfold restatus. cbn [session_get open_ok disk_room].
    destruct (session_get env (trace w ++ [EvPrint ("querying " +:+ url)]) url 30);
      reflexivity. }
  intros r v Hreq Hdec Hreach. unfold reaches_sleep in Hreach.
  rewrite Hreq, Hdec in Hreach.
  destruct (truthy save_path) eqn:Hsp.
  - destruct (truthy_Some _ Hsp) as (c & p & ->).
    change (default EmptyString (Some (String c p))) with (String c p) in Hreach.
    apply andb_true_iff in Hreach as [Hopen Hroom].
    pose proof (get_saved url _ w r v Hreq Hsp Hopen Hdec Hroom) as Hget.
    rewrite (events_of_app _ _ _ _ _ _ Hget), Hget. repeat split.
    intros path [= <-] _. cbn. apply lookup_insert_eq.
  - pose proof (get_not_saving url save_path w r Hreq Hsp) as Hget.
    rewrite Hdec in Hget.
    rewrite (events_of_app _ _ _ _ _ _ Hget), Hget. repeat split.
    intros path -> Hpath. destruct path; [congruence|discriminate].
Qed.

(** ** Failures of the save *)

(** C10.  Take a call with a save path whose request was answered.  When
    opening the file raises, or the response decodes and writing it raises,
    the same handler catches the [OSError]: the call prints it, returns
    [None] and does not sleep.  A call whose request raised returns the same
    value. *)
Theorem get_failed_save url path w r :
  path <> EmptyString ->
  session_get env (at_request w url) url 30 = Responded r ->
  (open_ok env (at_save w url) path = false \/
   exists v, json_loads (text r) = Some v
             /\ room_for env (at_save w url) path (json_dumps v) = false) ->
  fst (_get env url (Some path) w) = Returns VNone
  /\ events_of (_get env url (Some path)) w =
       [EvPrint ("querying " +:+ url); EvRequest url 30; EvPrintExn (OSError path)]
  /\ delays (events_of (_get env url (Some path)) w) = []
  /\ (forall env' e, session_get env' (at_request w url) url 30 = Failed e ->
        fst (_get env' url (Some path) w) = fst (_get env url (Some path) w)).
Proof.
  intros Hpath Hreq Hsave.
  assert (Hsp : truthy (Some path) = true) by (destruct path; [congruence|reflexivity]).
  assert (Hget : exists fs,
    _get env url (Some path) w =
      (Returns VNone,
       mkWorld fs
         (trace w ++ [EvPrint ("querying " +:+ url); EvRequest url 30;
                      EvPrintExn (OSError path)])
         (heap w))).
  { destruct (open_ok env (at_save w url) path) eqn:Hopen.
    - destruct Hsave as [|(v & Hdec & Hroom)]; [discriminate|].
      unfold room_for in Hroom.
      destruct (disk_room env (at_save w url) path) as [room|] eqn:Hd; [|discriminate].
      apply negb_false_iff, Nat.ltb_lt in Hroom.
      eexists. apply (get_write_failed url path w r v room); auto.
    - eexists. apply (get_open_failed url path w r); auto. }
  destruct Hget as [fs Hget].
  rewrite (events_of_app _ _ _ _ _ _ Hget), Hget.
  repeat split.
  intros env' e He. unfold_m. rewrite He. reflexivity.
Qed.

End QueryClient.

(** * The codec reads back what it writes *)

Module PlainJsonFacts.
Import PlainJson.






















































End PlainJsonFacts.

Section SavedRoundTrip.
Variable env : Env.


End SavedRoundTrip.

Section Papers.
Context `{PyLib}.
Variable env : Env.

(** ** Loops over the items of a response *)

Lemma for_acc_paper_ids papers acc w ids' w' :
  for_acc papers
    (fun paper_ids paper =>
       paper_id <- lift (getitem paper "paperId") ;;
       ret (paper_ids ++ [paper_id]))
    acc w = (Returns ids', w') ->
  w' = w /\ exists ids, ids' = acc ++ ids /\ Forall2 has_paperId papers ids.
Proof.
  revert acc. induction papers as [|paper papers IH]; intros acc Hrun.
  - cbn in Hrun. injection Hrun as <- <-. split; [reflexivity|].
    exists []. rewrite app_nil_r. auto.
  - cbn [for_acc] in Hrun. rewrite !bind_run, lift_run in Hrun.
    destruct (getitem paper "paperId") as [paper_id|e] eqn:Hid; [|discriminate].
    rewrite ret_run in Hrun. apply IH in Hrun as (-> & ids & -> & Hall).
    split; [reflexivity|]. exists (paper_id :: ids).
    rewrite <- app_assoc. split; [reflexivity|]. constructor; assumption.
Qed.

Lemma list_comp_paper_ids entries w ids w' :
  list_comp entries (fun p => lift (getitem p "paperId")) w = (Returns ids, w') ->
  w' = w /\ Forall2 has_paperId entries ids.
Proof.
  revert ids. induction entries as [|entry entries IH]; intros ids Hrun.
  - cbn in Hrun. injection Hrun as <- <-. auto.
  - cbn [list_comp] in Hrun. rewrite bind_run, lift_run in Hrun.
    destruct (getitem entry "paperId") as [id|e] eqn:Hid; [|discriminate].
    rewrite bind_run in Hrun.
    destruct (list_comp entries _ w) as [[rest|e] w1] eqn:Hrest; [|discriminate].
    rewrite ret_run in Hrun. injection Hrun as <- <-.
    destruct (IH rest eq_refl) as [-> Hall]. split; [reflexivity|].
    constructor; assumption.
Qed.

Lemma has_paperId_inj entry id1 id2 :
  has_paperId entry id1 -> has_paperId entry id2 -> id1 = id2.
Proof. unfold has_paperId. congruence. Qed.

(** ** The search *)

Lemma metadata_is_get self paper_id query_parameters save_path :
  get_metadata env self paper_id query_parameters save_path =
  _get env (paper_url self paper_id query_parameters) save_path.
Proof. reflexivity. Qed.


Lemma search_url_eq self n keywords field_of_study :
  _api self +:+ "/search?query=" +:+ join "+" keywords
    +:+ "&offset=10&limit=" +:+ pretty n
    +:+ "&fieldsOfStudy=" +:+ field_of_study
    +:+ "&fields=" +:+ join "," QUERY_INFO_BY_KEYWORDS
  = search_url self n keywords field_of_study.
Proof. reflexivity. Qed.

(** C3, as amended.  When [get_top_n_paper_ids] returns, it returns the
    [paperId] of every record of the [data] of the response, in the order of
    the response and as many as there are records.  Neither the bound [n] nor
    the identifiers are checked: the list is as long as [data] and holds
    whatever the [paperId] fields hold.  For the response with the records of
    A1 and B2 it returns A1 and B2. *)
Theorem get_top_n_paper_ids_returns self n keywords field_of_study save_path w ids :
  fst (get_top_n_paper_ids env self n keywords field_of_study save_path w) = Returns ids ->
  exists top data papers,
    fst (_get env (search_url self n keywords field_of_study) save_path w) = Returns top
    /\ getitem top "data" = Returns data
    /\ iter data = Returns papers
    /\ Forall2 has_paperId papers ids
    /\ length ids = length papers
    /\ (top = VDict [("data", VList [VDict [("paperId", VStr "A1")];
                                     VDict [("paperId", VStr "B2")]])] ->
        ids = [VStr "A1"; VStr "B2"]).
Proof.
  unfold get_top_n_paper_ids. cbv zeta. rewrite search_url_eq.
  set (url := search_url self n keywords field_of_study).
  rewrite bind_run.
  destruct (_get env url save_path w) as [[top|e] w1] eqn:Hget; [|discriminate].
  rewrite bind_run, lift_run.
  destruct (getitem top "data") as [data|e] eqn:Hdata; [|discriminate].
  rewrite bind_run, lift_run.
  destruct (iter data) as [papers|e] eqn:Hiter; [|discriminate].
  destruct (for_acc papers _ [] w1) as [[ids'|e] w2] eqn:Hloop; [|discriminate].
  cbn [fst]. intros [= ->].
  apply for_acc_paper_ids in Hloop as (_ & ids' & -> & Hall). cbn in Hall |- *.
  exists top, data, papers. repeat split; auto.
  - symmetry. eapply Forall2_length; eauto.
  - intros ->. cbn in Hdata. injection Hdata as <-. cbn in Hiter.
    injection Hiter as <-.
    inversion Hall as [|? id1 ? rest1 H1 Hall1]; subst.
    inversion Hall1 as [|? id2 ? rest2 H2 Hall2]; subst.
    inversion Hall2; subst.
    cbv in H1, H2. congruence.
Qed.

(** X2.  A fetch that fails hands [None] to its caller, and the callers index
    it unguarded: when the request raises, the search raises a [TypeError],
    and so does building a seed paper; no object is created. *)
Theorem failed_fetch_raises_in_callers self n keywords field_of_study save_path id w :
  (forall t url, exists e, session_get env t url 30 = Failed e) ->
  fst (get_top_n_paper_ids env self n keywords field_of_study save_path w)
    = Raises (TypeError "'NoneType' object is not subscriptable")
  /\ fst (SeedPaper_init env id self w)
      = Raises (TypeError "'NoneType' object is not subscriptable")
  /\ heap (snd (SeedPaper_init env id self w)) = heap w.
Proof.
  intros Hdown. split; [|split].
  - unfold get_top_n_paper_ids. cbv zeta. rewrite bind_run.
    match goal with |- context [_get env ?url save_path w] =>
      destruct (Hdown (at_request w url) url) as [e He];
      rewrite (get_request_failed env url save_path w e He) end.
    reflexivity.
  - unfold SeedPaper_init. cbv zeta. rewrite bind_run, metadata_is_get.
    match goal with |- context [_get env ?url ?sp w] =>
      destruct (Hdown (at_request w url) url) as [e He];
      rewrite (get_request_failed env url sp w e He) end.
    reflexivity.
  - unfold SeedPaper_init. cbv zeta. rewrite bind_run, metadata_is_get.
    match goal with |- context [_get env ?url ?sp w] =>
      destruct (Hdown (at_request w url) url) as [e He];
      rewrite (get_request_failed env url sp w e He) end.
    reflexivity.
Qed.

(** ** Building a seed paper *)

Lemma deref_run self w :
  deref self w =
    match heap w !! self with
    | Some obj => (Returns obj, w)
    | None => (Raises (AttributeError "SeedPaper"), w)
    end.
Proof. reflexivity. Qed.

Lemma citations_run self obj w :
  heap w !! self = Some obj -> citations self w = (Returns (_citations obj), w).
Proof. intros Hobj. unfold citations. rewrite bind_run, deref_run, Hobj. reflexivity. Qed.

Lemma references_run self obj w :
  heap w !! self = Some obj -> references self w = (Returns (_references obj), w).
Proof. intros Hobj. unfold references. rewrite bind_run, deref_run, Hobj. reflexivity. Qed.

Lemma paper_ids_are_mapped entries ids :
  Forall2 has_paperId entries ids ->
  ids = map paperId_of entries
  /\ Forall (fun entry => getitem entry "paperId" = Returns (paperId_of entry)) entries.
Proof.
  induction 1 as [|entry id entries ids Hid _ [-> IH]]; [split; constructor|].
  unfold has_paperId in Hid.
  assert (Hp : paperId_of entry = id) by (unfold paperId_of; rewrite Hid; reflexivity).
  split.
  - cbn [map]. rewrite Hp. reflexivity.
  - constructor; [rewrite Hp; exact Hid | exact IH].
Qed.

(** C4.  Take a [SeedPaper(id, query)] that returned an object, the response
    its one fetch returned, and the lists [raw_citations] and
    [raw_references] that response holds under [citations] and [references].
    The [citations] view of the object is the list of the [paperId] of the
    entries of [raw_citations], entry by entry, and the [references] view
    that of [raw_references]: the same lengths, the same order, repeated
    identifiers kept; and every entry does carry the [paperId] taken. *)
Theorem seed_paper_views id query w self metadata raw_citations raw_references :
  fst (SeedPaper_init env id query w) = Returns self ->
  fst (get_metadata env query id QUERY_INFO_ABOUT_A_PAPER (Some (seed_path id)) w)
    = Returns metadata ->
  getitem metadata "citations" = Returns (VList raw_citations) ->
  getitem metadata "references" = Returns (VList raw_references) ->
  fst (citations self (snd (SeedPaper_init env id query w)))
    = Returns (map paperId_of raw_citations)
  /\ fst (references self (snd (SeedPaper_init env id query w)))
     = Returns (map paperId_of raw_references)
  /\ Forall (fun entry => getitem entry "paperId" = Returns (paperId_of entry))
       raw_citations
  /\ Forall (fun entry => getitem entry "paperId" = Returns (paperId_of entry))
       raw_references
  /\ length (map paperId_of raw_citations) = length raw_citations
  /\ length (map paperId_of raw_references) = length raw_references.
Proof.
  unfold SeedPaper_init. cbv zeta.
  change ("./output/" +:+ SEEDING_PAPER_DIR +:+ "/" +:+ py_str id +:+ ".json")
    with (seed_path id).
  rewrite bind_run.
  destruct (get_metadata env query id QUERY_INFO_ABOUT_A_PAPER (Some (seed_path id)) w)
    as [[metadata'|e] w1] eqn:Hget; [|discriminate].
  intros Hrun [= ->] Hcv Hrv. revert Hrun.
  rewrite bind_run, lift_run, Hcv, bind_run, lift_run. cbn [iter].
  rewrite bind_run.
  destruct (list_comp raw_citations _ w1) as [[cits|e] w2] eqn:Hcits; [|discriminate].
  apply list_comp_paper_ids in Hcits as [-> Hcits].
  rewrite bind_run, lift_run, Hrv, bind_run, lift_run. cbn [iter].
  rewrite bind_run.
  destruct (list_comp raw_references _ w1) as [[refs|e] w2] eqn:Hrefs; [|discriminate].
  apply list_comp_paper_ids in Hrefs as [-> Hrefs].
  unfold alloc. cbn [fst snd]. intros [= <-].
  rewrite (citations_run _ (mkSeedPaper id query cits refs))
    by (cbn; apply lookup_insert_eq).
  rewrite (references_run _ (mkSeedPaper id query cits refs))
    by (cbn; apply lookup_insert_eq).
  apply paper_ids_are_mapped in Hcits as [-> Hcits].
  apply paper_ids_are_mapped in Hrefs as [-> Hrefs].
  cbn [_citations _references]. rewrite !length_map. repeat split; assumption.
Qed.

(** ** Snowballing *)

Lemma for_each_steps {A} (P : World -> Prop) (step : World -> A -> World)
    (body : A -> M unit) (xs : list A) :
  (forall x w, P w -> body x w = (Returns tt, step w x) /\ P (step w x)) ->
  forall w, P w ->
    for_each xs body w = (Returns tt, foldl step w xs) /\ P (foldl step w xs).
Proof.
  intros Hbody. induction xs as [|x xs IH]; intros w Hw.
  - cbn. auto.
  - cbn [for_each foldl]. rewrite bind_run.
    destruct (Hbody x w Hw) as [-> Hstep]. apply IH, Hstep.
Qed.

Lemma snowball_fetch_heap query w id :
  heap (snowball_fetch env query w id) = heap w.
Proof. unfold snowball_fetch. rewrite metadata_is_get. apply get_heap. Qed.

Lemma snowball_fetch_body self obj id w :
  heap w !! self = Some obj ->
  (obj <- deref self ;;
   get_metadata env (_query obj) id QUERY_INFO_ABOUT_A_PAPER (Some (snowball_path id)) ;;;
   ret tt) w
  = (Returns tt, snowball_fetch env (_query obj) w id)
  /\ heap (snowball_fetch env (_query obj) w id) !! self = Some obj.
Proof.
  intros Hobj. rewrite snowball_fetch_heap. split; [|exact Hobj].
  rewrite bind_run, deref_run, Hobj, bind_run. unfold snowball_fetch.
  rewrite metadata_is_get.
  destruct (get_returns env (paper_url (_query obj) id QUERY_INFO_ABOUT_A_PAPER)
              (Some (snowball_path id)) w) as [v Hv].
  destruct (_get env _ _ w) as [[v'|e] w1]; [reflexivity|discriminate].
Qed.

Lemma snowball_fetches_trace query ids w :
  exists t,
    trace (foldl (snowball_fetch env query) w ids) = trace w ++ t
    /\ requests t =
         map (fun id => (paper_url query id QUERY_INFO_ABOUT_A_PAPER, 30)) ids.
Proof.
  revert w. induction ids as [|id ids IH]; intros w.
  - exists []. cbn. rewrite app_nil_r. auto.
  - cbn [foldl]. destruct (IH (snowball_fetch env query w id)) as (t & -> & Ht).
    unfold snowball_fetch. rewrite metadata_is_get, get_trace.
    eexists. rewrite <- app_assoc. split; [reflexivity|].
    rewrite requests_app, get_requests, Ht. reflexivity.
Qed.

Lemma snowball_fetches_files_heap query ids w :
  heap (foldl (snowball_fetch env query) w ids) = heap w.
Proof.
  revert w. induction ids as [|id ids IH]; intros w; [reflexivity|].
  cbn [foldl]. rewrite IH. apply snowball_fetch_heap.
Qed.

Lemma snowballing_run self obj w :
  heap w !! self = Some obj ->
  snowballing env self w =
    (Returns tt,
     foldl (snowball_fetch env (_query obj)) w (_references obj ++ _citations obj)).
Proof.
  intros Hobj. unfold snowballing.
  rewrite bind_run, (references_run self obj w Hobj), bind_run.
  match goal with
  | |- context [for_each ?xs ?body ?w0] =>
      destruct (for_each_steps (fun w => heap w !! self = Some obj)
                  (snowball_fetch env (_query obj)) body xs
                  (fun id w => snowball_fetch_body self obj id w) w0 Hobj)
        as [-> Hobj1]
  end.
  rewrite bind_run, (citations_run self obj _ Hobj1).
  match goal with
  | |- context [for_each ?xs ?body ?w0] =>
      destruct (for_each_steps (fun w => heap w !! self = Some obj)
                  (snowball_fetch env (_query obj)) body xs
                  (fun id w => snowball_fetch_body self obj id w) w0 Hobj1)
        as [-> _]
  end.
  rewrite foldl_app. reflexivity.
Qed.

Lemma list_comp_world entries w :
  snd (list_comp entries (fun p => lift (getitem p "paperId")) w) = w.
Proof.
  induction entries as [|entry entries IH]; [reflexivity|].
  cbn [list_comp]. rewrite bind_run, lift_run.
  destruct (getitem entry "paperId"); [|reflexivity].
  rewrite bind_run. destruct (list_comp entries _ w) as [[ids|e] w1]; cbn in *; auto.
Qed.

Lemma for_acc_world papers acc w :
  snd (for_acc papers
         (fun paper_ids paper =>
            paper_id <- lift (getitem paper "paperId") ;;
            ret (paper_ids ++ [paper_id]))
         acc w) = w.
Proof.
  revert acc. induction papers as [|paper papers IH]; intros acc; [reflexivity|].
  cbn [for_acc]. rewrite !bind_run, lift_run.
  destruct (getitem paper "paperId"); [|reflexivity].
  rewrite ret_run. apply IH.
Qed.

(** What [SeedPaper(id, query)] does to the world: its one fetch, and the
    new object at a fresh reference when [__init__] returns. *)
Lemma seed_paper_init_world id query w :
  let w1 := snd (get_metadata env query id QUERY_INFO_ABOUT_A_PAPER (Some (seed_path id)) w) in
  files (snd (SeedPaper_init env id query w)) = files w1
  /\ trace (snd (SeedPaper_init env id query w)) = trace w1
  /\ (heap (snd (SeedPaper_init env id query w)) = heap w \/
      exists obj, heap (snd (SeedPaper_init env id query w)) =
                    <[fresh (dom (heap w)) := obj]> (heap w)).
Proof.
  cbv zeta. unfold SeedPaper_init. cbv zeta.
  change ("./output/" +:+ SEEDING_PAPER_DIR +:+ "/" +:+ py_str id +:+ ".json")
    with (seed_path id).
  rewrite bind_run.
  pose proof (get_heap env (paper_url query id QUERY_INFO_ABOUT_A_PAPER)
                (Some (seed_path id)) w) as Hheap.
  rewrite <- metadata_is_get in Hheap.
  destruct (get_metadata env query id QUERY_INFO_ABOUT_A_PAPER (Some (seed_path id)) w)
    as [[metadata|e] w1]; cbn [snd] in *; [|auto].
  rewrite bind_run, lift_run.
  destruct (getitem metadata "citations") as [cv|e]; [|auto].
  rewrite bind_run, lift_run.
  destruct (iter cv) as [cs|e]; [|auto].
  rewrite bind_run. pose proof (list_comp_world cs w1) as Hcs.
  destruct (list_comp cs _ w1) as [[cits|e] w2]; cbn in Hcs; subst w2; [|auto].
  rewrite bind_run, lift_run.
  destruct (getitem metadata "references") as [rv|e]; [|auto].
  rewrite bind_run, lift_run.
  destruct (iter rv) as [rs|e]; [|auto].
  rewrite bind_run. pose proof (list_comp_world rs w1) as Hrs.
  destruct (list_comp rs _ w1) as [[refs|e] w2]; cbn in Hrs; subst w2; [|auto].
  unfold alloc. cbn [snd files trace heap]. rewrite Hheap. eauto.
Qed.

(** C5.  Snowballing a seed paper returns, and what it does is one fetch per
    identifier of [references], in order, then one per identifier of
    [citations], in order: each asks for the fields of
    [QUERY_INFO_ABOUT_A_PAPER], as the one fetch of [SeedPaper(id, query)]
    does, and saves under the snowballing directory at the identifier's
    name; what a fetch returns is dropped.  The requests sent are those of
    these fetches: as many as both lists are long together. *)
Theorem snowballing_fetches self obj w :
  heap w !! self = Some obj ->
  snowballing env self w =
    (Returns tt,
     foldl (fun w id =>
              snd (get_metadata env (_query obj) id QUERY_INFO_ABOUT_A_PAPER
                     (Some (snowball_path id)) w))
       w (_references obj ++ _citations obj))
  /\ requests (events_of (snowballing env self) w) =
       map (fun id => (paper_url (_query obj) id QUERY_INFO_ABOUT_A_PAPER, 30))
         (_references obj ++ _citations obj)
  /\ length (requests (events_of (snowballing env self) w)) =
       (length (_references obj) + length (_citations obj))%nat
  /\ (forall id query w0,
        requests (events_of (SeedPaper_init env id query) w0) =
          [(paper_url query id QUERY_INFO_ABOUT_A_PAPER, 30)]).
Proof.
  intros Hobj. pose proof (snowballing_run self obj w Hobj) as Hrun.
  destruct (snowball_fetches_trace (_query obj) (_references obj ++ _citations obj) w)
    as (t & Htrace & Hreqs).
  assert (Hev : events_of (snowballing env self) w = t).
  { unfold events_of. rewrite Hrun. cbn [snd]. rewrite Htrace. apply drop_app_length. }
  split; [exact Hrun|]. rewrite Hev, Hreqs. split; [reflexivity|].
  split; [rewrite length_map, length_app; reflexivity|].
  intros id query w0. unfold events_of.
  destruct (seed_paper_init_world id query w0) as (_ & -> & _).
  rewrite metadata_is_get, get_trace, drop_app_length. apply get_requests.
Qed.

(** ** Seed papers do not change *)

Lemma get_top_n_paper_ids_heap self n keywords field_of_study save_path w :
  heap (snd (get_top_n_paper_ids env self n keywords field_of_study save_path w)) = heap w.
Proof.
  unfold get_top_n_paper_ids. cbv zeta. rewrite bind_run.
  match goal with |- context [_get env ?url save_path w] =>
    pose proof (get_heap env url save_path w) as Hheap;
    destruct (_get env url save_path w) as [[top|e] w1] end; cbn [snd] in *; [|auto].
  rewrite bind_run, lift_run. destruct (getitem top "data") as [data|e]; [|auto].
  rewrite bind_run, lift_run. destruct (iter data) as [papers|e]; [|auto].
  rewrite for_acc_world. exact Hheap.
Qed.

Lemma snowballing_heap self w :
  heap (snd (snowballing env self w)) = heap w.
Proof.
  destruct (heap w !! self) as [obj|] eqn:Hobj.
  - rewrite (snowballing_run self obj w Hobj). apply snowball_fetches_files_heap.
  - unfold snowballing, references. rewrite !bind_run, deref_run, Hobj. reflexivity.
Qed.

Lemma run_call_keeps w c self obj :
  heap w !! self = Some obj -> heap (run_call env w c) !! self = Some obj.
Proof.
  intros Hobj. destruct c; cbn [run_call].
  - rewrite get_heap. exact Hobj.
  - rewrite get_top_n_paper_ids_heap. exact Hobj.
  - rewrite metadata_is_get, get_heap. exact Hobj.
  - destruct (seed_paper_init_world id query w) as (_ & _ & [-> | [new ->]]); [exact Hobj|].
    rewrite lookup_insert_ne; [exact Hobj|].
    intros Heq. apply (is_fresh (dom (heap w))). rewrite Heq.
    apply elem_of_dom. eauto.
  - unfold citations. rewrite bind_run, deref_run.
    destruct (heap w !! self0); exact Hobj.
  - unfold references. rewrite bind_run, deref_run.
    destruct (heap w !! self0); exact Hobj.
  - rewrite snowballing_heap. exact Hobj.
Qed.

(** C8.  Once a seed paper is built, whatever is called afterwards -- the
    methods of the query helper, building other seed papers, the views and
    the snowballing of this paper or of another, any number of times and in
    any order -- the object keeps its identifier, its citations and its
    references, and both views return what they returned at first.
    Snowballing the paper again and again leaves every object as it was. *)
Theorem seed_paper_is_immutable self obj w (cs : list call) :
  heap w !! self = Some obj ->
  heap (run_calls env w cs) !! self = Some obj
  /\ fst (citations self (run_calls env w cs)) = Returns (_citations obj)
  /\ fst (references self (run_calls env w cs)) = Returns (_references obj)
  /\ (forall n, heap (Nat.iter n (fun w => snd (snowballing env self w)) w) = heap w).
Proof.
  intros Hobj.
  assert (Hkeep : heap (run_calls env w cs) !! self = Some obj).
  { unfold run_calls. revert w Hobj. induction cs as [|c cs IH]; intros w Hobj.
    - exact Hobj.
    - cbn [foldl]. apply IH, run_call_keeps, Hobj. }
  split; [exact Hkeep|].
  rewrite (citations_run self obj _ Hkeep), (references_run self obj _ Hkeep).
  repeat split.
  induction n as [|n IH]; [reflexivity|].
  rewrite Nat.iter_succ, snowballing_heap. exact IH.
Qed.

End Papers.

(** * More on the query client *)

Section SavedFiles.
Context `{PyLib}.
Variable env : Env.

(** What a call of [_get] can do to the files: nothing, or set the file at
    its save path. *)
Lemma get_files url save_path w :
  files (snd (_get env url save_path w)) = files w
  \/ exists path content,
       save_path = Some path /\ path <> EmptyString
       /\ files (snd (_get env url save_path w)) = <[path := content]> (files w).
Proof.
  destruct (session_get env (at_request w url) url 30) as [r|e] eqn:Hreq.
  2:{ rewrite (get_request_failed env url save_path w e Hreq). auto. }
  destruct (truthy save_path) eqn:Hsp.
  2:{ rewrite (get_not_saving env url save_path w r Hreq Hsp).
      destruct (json_loads (text r)); auto. }
  destruct (truthy_Some _ Hsp) as (c & p & ->).
  destruct (open_ok env (at_save w url) (String c p)) eqn:Hopen.
  2:{ rewrite (get_open_failed env url _ w r Hreq Hsp Hopen). auto. }
  right. exists (String c p).
  destruct (json_loads (text r)) as [v|] eqn:Hdec.
  2:{ rewrite (get_decode_failed_saving env url _ w r Hreq Hsp Hopen Hdec).
      eexists. repeat split. discriminate. }
  destruct (room_for env (at_save w url) (String c p) (json_dumps v)) eqn:Hroom.
  { rewrite (get_saved env url _ w r v Hreq Hsp Hopen Hdec Hroom).
    eexists. repeat split. discriminate. }
  unfold room_for in Hroom.
  destruct (disk_room env (at_save w url) (String c p)) as [room|] eqn:Hd; [|discriminate].
  apply negb_false_iff, Nat.ltb_lt in Hroom.
  rewrite (get_write_failed env url _ w r v room Hreq Hsp Hopen Hdec Hd Hroom).
  eexists. repeat split. discriminate.
Qed.

(** X3.  A call of [_get] never touches a file other than the one at its
    save path, however the call goes; without a save path, or with the empty
    string for one, it touches no file at all. *)
Theorem get_touches_only_save_path url save_path w :
  (forall q, save_path <> Some q ->
     files (snd (_get env url save_path w)) !! q = files w !! q)
  /\ (truthy save_path = false -> files (snd (_get env url save_path w)) = files w).
Proof.
  destruct (get_files url save_path w) as [Hsame | (path & content & -> & Hpath & Hset)].
  - rewrite Hsame. auto.
  - rewrite Hset. split.
    + intros q Hq. apply lookup_insert_ne. congruence.
    + destruct path; [congruence | discriminate].
Qed.

(** X5.  A save replaces the file, it does not add to it: after a call with a
    save path that succeeded, the file holds the text of the value returned
    whatever it held before; and when the same call is made again and again
    succeeds with the same value, the files are as the first call left
    them. *)
Theorem get_overwrites_and_repeats url path w v :
  path <> EmptyString ->
  caught (events_of (_get env url (Some path)) w) = [] ->
  fst (_get env url (Some path) w) = Returns v ->
  files (snd (_get env url (Some path) w)) = <[path := json_dumps v]> (files w)
  /\ (caught (events_of (_get env url (Some path)) (snd (_get env url (Some path) w))) = [] ->
      fst (_get env url (Some path) (snd (_get env url (Some path) w))) = Returns v ->
      files (snd (_get env url (Some path) (snd (_get env url (Some path) w))))
      = files (snd (_get env url (Some path) w))).
Proof.
  intros Hpath Hok Hret.
  destruct (get_succeeded_saving env url path w Hpath Hok) as (r & v1 & _ & _ & Hget).
  rewrite Hget in Hret. cbn in Hret. injection Hret as ->.
  split; [rewrite Hget; reflexivity|].
  intros Hok2 Hret2.
  destruct (get_succeeded_saving env url path _ Hpath Hok2) as (r2 & v2 & _ & _ & Hget2).
  rewrite Hget2 in Hret2. cbn in Hret2. injection Hret2 as ->.
  rewrite Hget2, Hget. cbn. apply insert_insert_eq.
Qed.

End SavedFiles.

(** * Responses of another shape *)

Section Shapes.
Context `{PyLib}.
Variable env : Env.

Lemma for_acc_lacking_paperId (records : list (list (string * pyval))) acc w :
  Exists (fun record => dict_get record "paperId" = None) records ->
  for_acc (map VDict records)
    (fun paper_ids paper =>
       paper_id <- lift (getitem paper "paperId") ;;
       ret (paper_ids ++ [paper_id]))
    acc w = (Raises (KeyError "paperId"), w).
Proof.
  revert acc. induction records as [|record records IH]; intros acc Hex.
  - inversion Hex.
  - cbn [map for_acc]. rewrite !bind_run, lift_run. cbn [getitem].
    destruct (dict_get record "paperId") as [paper_id|] eqn:Hid; [|reflexivity].
    rewrite ret_run. apply IH. inversion Hex; subst; [congruence | assumption].
Qed.

Lemma list_comp_returns entries ids w :
  Forall2 has_paperId entries ids ->
  list_comp entries (fun p => lift (getitem p "paperId")) w = (Returns ids, w).
Proof.
  induction 1 as [|entry id entries ids Hid _ IH]; [reflexivity|].
  cbn [list_comp]. rewrite bind_run, lift_run, Hid, bind_run, IH. reflexivity.
Qed.

Lemma get_top_n_paper_ids_world self n keywords field_of_study save_path w :
  snd (get_top_n_paper_ids env self n keywords field_of_study save_path w)
  = snd (_get env (search_url self n keywords field_of_study) save_path w).
Proof.
  unfold get_top_n_paper_ids. cbv zeta. rewrite search_url_eq, bind_run.
  destruct (_get env _ save_path w) as [[top|e] w1]; [|reflexivity].
  rewrite bind_run, lift_run. destruct (getitem top "data") as [data|e]; [|reflexivity].
  rewrite bind_run, lift_run. destruct (iter data) as [papers|e]; [|reflexivity].
  apply for_acc_world.
Qed.

(** X4.  The search saves and sleeps before it looks at the shape of the
    response: whatever the extraction of the identifiers does, the files, the
    trace and the objects are as its one fetch left them.  A response that is
    an object without [data] makes the search raise [KeyError('data')]; a
    [data] list of objects one of which has no [paperId] makes it raise
    [KeyError('paperId')]. *)
Theorem search_on_malformed_response self n keywords field_of_study save_path w top :
  fst (_get env (search_url self n keywords field_of_study) save_path w) = Returns top ->
  snd (get_top_n_paper_ids env self n keywords field_of_study save_path w)
    = snd (_get env (search_url self n keywords field_of_study) save_path w)
  /\ (forall entries,
        top = VDict entries -> dict_get entries "data" = None ->
        fst (get_top_n_paper_ids env self n keywords field_of_study save_path w)
          = Raises (KeyError "data"))
  /\ (forall entries records,
        top = VDict entries ->
        dict_get entries "data" = Some (VList (map VDict records)) ->
        Exists (fun record => dict_get record "paperId" = None) records ->
        fst (get_top_n_paper_ids env self n keywords field_of_study save_path w)
          = Raises (KeyError "paperId")).
Proof.
  unfold get_top_n_paper_ids. cbv zeta. rewrite search_url_eq.
  set (url := search_url self n keywords field_of_study).
  rewrite bind_run.
  destruct (_get env url save_path w) as [[top'|e] w1] eqn:Hget; [|discriminate].
  cbn [fst snd]. intros [= ->]. split; [|split].
  - pose proof (get_top_n_paper_ids_world self n keywords field_of_study save_path w)
      as Hworld.
    unfold get_top_n_paper_ids in Hworld. cbv zeta in Hworld.
    rewrite search_url_eq, bind_run in Hworld. fold url in Hworld.
    rewrite Hget in Hworld. exact Hworld.
  - intros entries -> Hdata. rewrite bind_run, lift_run. cbn [getitem].
    rewrite Hdata. reflexivity.
  - intros entries records -> Hdata Hex. rewrite bind_run, lift_run. cbn [getitem].
    rewrite Hdata, bind_run, lift_run. cbn [iter].
    rewrite (for_acc_lacking_paperId records [] w1 Hex). reflexivity.
Qed.

(** X6.  Building a seed paper saves the response before it looks at its
    shape: the files and the trace are as its one fetch left them, whether an
    object results or not.  A response that is an object without [citations]
    makes the construction raise [KeyError('citations')]; one whose citations
    are in order and that has no [references] makes it raise
    [KeyError('references')]; in both cases no object is created. *)
Theorem seed_paper_on_malformed_response id query w entries :
  fst (get_metadata env query id QUERY_INFO_ABOUT_A_PAPER (Some (seed_path id)) w)
    = Returns (VDict entries) ->
  files (snd (SeedPaper_init env id query w))
    = files (snd (get_metadata env query id QUERY_INFO_ABOUT_A_PAPER (Some (seed_path id)) w))
  /\ trace (snd (SeedPaper_init env id query w))
     = trace (snd (get_metadata env query id QUERY_INFO_ABOUT_A_PAPER (Some (seed_path id)) w))
  /\ (dict_get entries "citations" = None ->
      fst (SeedPaper_init env id query w) = Raises (KeyError "citations")
      /\ heap (snd (SeedPaper_init env id query w)) = heap w)
  /\ (forall cv cs cits,
        dict_get entries "citations" = Some cv -> iter cv = Returns cs ->
        Forall2 has_paperId cs cits ->
        dict_get entries "references" = None ->
        fst (SeedPaper_init env id query w) = Raises (KeyError "references")
        /\ heap (snd (SeedPaper_init env id query w)) = heap w).
Proof.
  intros Hfetch.
  destruct (seed_paper_init_world env id query w) as (Hfiles & Htrace & _).
  split; [exact Hfiles|]. split; [exact Htrace|].
  pose proof (get_heap env (paper_url query id QUERY_INFO_ABOUT_A_PAPER)
                (Some (seed_path id)) w) as Hheap.
  rewrite <- metadata_is_get in Hheap.
  unfold SeedPaper_init. cbv zeta.
  change ("./output/" +:+ SEEDING_PAPER_DIR +:+ "/" +:+ py_str id +:+ ".json")
    with (seed_path id).
  rewrite bind_run.
  destruct (get_metadata env query id QUERY_INFO_ABOUT_A_PAPER (Some (seed_path id)) w)
    as [[metadata|e] w1]; [|discriminate].
  cbn [fst snd] in *. injection Hfetch as ->. split.
  - intros Hcv. rewrite bind_run, lift_run. cbn [getitem]. rewrite Hcv. auto.
  - intros cv cs cits Hcv Hcs Hcits Hrv.
    rewrite bind_run, lift_run. cbn [getitem]. rewrite Hcv.
    rewrite bind_run, lift_run, Hcs, bind_run, (list_comp_returns cs cits w1 Hcits).
    rewrite bind_run, lift_run, Hrv. auto.
Qed.

End Shapes.

(** * Whole runs *)

Section Runs.
Context `{PyLib}.
Variable env : Env.

Lemma throttled_nil : throttled [].
Proof. repeat split; cbn; auto. Qed.

Lemma throttled_app t1 t2 : throttled t1 -> throttled t2 -> throttled (t1 ++ t2).
Proof.
  intros (Hd1 & Hn1 & Hr1) (Hd2 & Hn2 & Hr2). unfold throttled.
  rewrite delays_app, requests_app, !length_app. repeat split.
  - apply Forall_app; auto.
  - lia.
  - apply Forall_app; auto.
Qed.

Lemma get_throttled url save_path w :
  exists t, trace (snd (_get env url save_path w)) = trace w ++ t /\ throttled t.
Proof.
  destruct (get_run env url save_path w) as (v & fs & post & Hget & Hpost & _).
  rewrite Hget. eexists. split; [reflexivity|].
  assert (Hd : delays (EvPrint ("querying " +:+ url) :: EvRequest url 30 :: post)
               = delays post) by reflexivity.
  assert (Hr : requests (EvPrint ("querying " +:+ url) :: EvRequest url 30 :: post)
               = (url, 30) :: requests post) by reflexivity.
  unfold throttled. rewrite Hd, Hr, Hpost.
  rewrite delays_app, requests_app, delays_printed, requests_printed, !app_nil_r.
  destruct (reaches_sleep env url save_path w); cbn; repeat split;
    repeat constructor.
Qed.


Lemma snowball_fetches_throttled query ids w :
  exists t,
    trace (foldl (snowball_fetch env query) w ids) = trace w ++ t /\ throttled t.
Proof.
  revert w. induction ids as [|id ids IH]; intros w.
  - exists []. cbn. rewrite app_nil_r. split; [reflexivity | apply throttled_nil].
  - cbn [foldl]. destruct (IH (snowball_fetch env query w id)) as (t & -> & Ht).
    unfold snowball_fetch. rewrite metadata_is_get.
    destruct (get_throttled (paper_url query id QUERY_INFO_ABOUT_A_PAPER)
                (Some (snowball_path id)) w) as (t0 & -> & Ht0).
    exists (t0 ++ t). rewrite <- app_assoc. split; [reflexivity|].
    apply throttled_app; assumption.
Qed.

Lemma run_call_throttled w c :
  exists t, trace (run_call env w c) = trace w ++ t /\ throttled t.
Proof.
  assert (Hsame : forall w', trace w' = trace w ->
            exists t, trace w' = trace w ++ t /\ throttled t).
  { intros w' ->. exists []. rewrite app_nil_r. split; [reflexivity | apply throttled_nil]. }
  destruct c; cbn [run_call].
  - apply get_throttled.
  - rewrite get_top_n_paper_ids_world. apply get_throttled.
  - rewrite metadata_is_get. apply get_throttled.
  - destruct (seed_paper_init_world env id query w) as (_ & -> & _).
    rewrite metadata_is_get. apply get_throttled.
  - apply Hsame. unfold citations. rewrite bind_run, deref_run.
    destruct (heap w !! self); reflexivity.
  - apply Hsame. unfold references. rewrite bind_run, deref_run.
    destruct (heap w !! self); reflexivity.
  - destruct (heap w !! self) as [obj|] eqn:Hobj.
    + rewrite (snowballing_run env self obj w Hobj). apply snowball_fetches_throttled.
    + apply Hsame. unfold snowballing, references.
      rewrite !bind_run, deref_run, Hobj. reflexivity.
Qed.

(** X7.  Whatever operations of the two classes are called, in whatever
    order and however each of them ends, the trace only grows, and what is
    added keeps to the throttle: every delay is the 3.5 of [_get], there is
    at most one delay per request sent, and every request carries the timeout
    of 30. *)
Theorem calls_keep_to_the_throttle w (cs : list call) :
  exists t,
    trace (run_calls env w cs) = trace w ++ t
    /\ Forall (fun d => d = 3.5%Q) (delays t)
    /\ (length (delays t) <= length (requests t))%nat
    /\ Forall (fun r => snd r = 30) (requests t).
Proof.
  change (exists t, trace (run_calls env w cs) = trace w ++ t /\ throttled t).
  unfold run_calls. revert w. induction cs as [|c cs IH]; intros w.
  - exists []. cbn. rewrite app_nil_r. split; [reflexivity | apply throttled_nil].
  - cbn [foldl]. destruct (IH (run_call env w c)) as (t & -> & Ht).
    destruct (run_call_throttled w c) as (t0 & -> & Ht0).
    exists (t0 ++ t). rewrite <- app_assoc. split; [reflexivity|].
    apply throttled_app; assumption.
Qed.

(** ** The main block *)

Lemma seed_paper_init_returns id query w self :
  fst (SeedPaper_init env id query w) = Returns self ->
  exists obj,
    _id obj = id /\ _query obj = query
    /\ heap (snd (SeedPaper_init env id query w)) !! self = Some obj.
Proof.
  unfold SeedPaper_init. cbv zeta. rewrite bind_run.
  destruct (get_metadata env query id QUERY_INFO_ABOUT_A_PAPER _ w)
    as [[metadata|e] w1]; [|discriminate].
  rewrite bind_run, lift_run.
  destruct (getitem metadata "citations") as [cv|e]; [|discriminate].
  rewrite bind_run, lift_run. destruct (iter cv) as [cs|e]; [|discriminate].
  rewrite bind_run. destruct (list_comp cs _ w1) as [[cits|e] w2]; [|discriminate].
  rewrite bind_run, lift_run.
  destruct (getitem metadata "references") as [rv|e]; [|discriminate].
  rewrite bind_run, lift_run. destruct (iter rv) as [rs|e]; [|discriminate].
  rewrite bind_run. destruct (list_comp rs _ w2) as [[refs|e] w3]; [|discriminate].
  unfold alloc. cbn [fst snd]. intros [= <-].
  exists (mkSeedPaper id query cits refs). repeat split. cbn. apply lookup_insert_eq.
Qed.

Lemma seed_paper_init_requests id query w :
  exists t,
    trace (snd (SeedPaper_init env id query w)) = trace w ++ t
    /\ requests t = seed_requests query [id].
Proof.
  destruct (seed_paper_init_world env id query w) as (_ & -> & _).
  rewrite metadata_is_get, get_trace. eexists. split; [reflexivity|].
  apply get_requests.
Qed.

(** The seed papers of the main block, when all of them get built. *)
Lemma seed_papers_built query ids w locs w' :
  list_comp ids (fun p => SeedPaper_init env p query) w = (Returns locs, w') ->
  exists objs t,
    Forall2 (fun l obj => heap w' !! l = Some obj) locs objs
    /\ map _id objs = ids
    /\ Forall (fun obj => _query obj = query) objs
    /\ trace w' = trace w ++ t
    /\ requests t = seed_requests query ids
    /\ (forall l obj, heap w !! l = Some obj -> heap w' !! l = Some obj).
Proof.
  revert w locs w'. induction ids as [|id ids IH]; intros w locs w' Hrun.
  - cbn in Hrun. injection Hrun as <- <-. exists [], [].
    rewrite app_nil_r. repeat split; auto.
  - cbn [list_comp] in Hrun. rewrite bind_run in Hrun.
    pose proof (seed_paper_init_returns id query w) as Hnew.
    destruct (seed_paper_init_requests id query w) as (t0 & Ht0 & Hr0).
    pose proof (fun l obj => run_call_keeps env w (CallSeedPaper id query) l obj) as Hkeep0.
    cbn [run_call] in Hkeep0.
    destruct (SeedPaper_init env id query w) as [[l|e] w1]; [|discriminate].
    cbn [fst snd] in *. destruct (Hnew l eq_refl) as (obj & Hid & Hq & Hobj).
    rewrite bind_run in Hrun.
    destruct (list_comp ids _ w1) as [[ls|e] w2] eqn:Hrest; [|discriminate].
    rewrite ret_run in Hrun. injection Hrun as <- <-.
    destruct (IH w1 ls w2 Hrest) as (objs & t & Hall & Hids & Hqs & Ht & Hr & Hkeep).
    exists (obj :: objs), (t0 ++ t). repeat split.
    + constructor; auto.
    + cbn. congruence.
    + constructor; auto.
    + rewrite Ht, Ht0, <- app_assoc. reflexivity.
    + rewrite requests_app, Hr0, Hr. reflexivity.
    + auto.
Qed.

(** The seed papers of the main block, when one of them fails: the failing
    fetch is the last request. *)
Lemma seed_papers_aborted query ids w e w' :
  list_comp ids (fun p => SeedPaper_init env p query) w = (Raises e, w') ->
  exists k t,
    (k < length ids)%nat
    /\ trace w' = trace w ++ t
    /\ requests t = seed_requests query (take (S k) ids).
Proof.
  revert w. induction ids as [|id ids IH]; intros w Hrun.
  - discriminate.
  - cbn [list_comp] in Hrun. rewrite bind_run in Hrun.
    destruct (seed_paper_init_requests id query w) as (t0 & Ht0 & Hr0).
    destruct (SeedPaper_init env id query w) as [[l|e0] w1]; cbn [snd] in *.
    + rewrite bind_run in Hrun.
      destruct (list_comp ids _ w1) as [[ls|e1] w2] eqn:Hrest; [discriminate|].
      injection Hrun as <- <-.
      destruct (IH w1 Hrest) as (k & t & Hk & Ht & Hr).
      exists (S k), (t0 ++ t). repeat split.
      * cbn. lia.
      * rewrite Ht, Ht0, <- app_assoc. reflexivity.
      * rewrite requests_app, Hr0, Hr. reflexivity.
    + injection Hrun as <- <-. exists 0%nat, t0. repeat split.
      * cbn. lia.
      * exact Ht0.
      * rewrite Hr0. cbn. rewrite take_0. reflexivity.
Qed.

(** Snowballing one built paper after the other. *)
Lemma snowball_all locs objs w :
  Forall2 (fun l obj => heap w !! l = Some obj) locs objs ->
  exists w' t,
    for_each locs (snowballing env) w = (Returns tt, w')
    /\ heap w' = heap w
    /\ trace w' = trace w ++ t
    /\ requests t = flat_map snowball_requests objs.
Proof.
  revert objs w. induction locs as [|l locs IH]; intros objs w Hall.
  - inversion Hall; subst. exists w, []. cbn. rewrite app_nil_r. auto.
  - inversion Hall as [|? obj ? objs' Hobj Hrest]; subst.
    cbn [for_each]. rewrite bind_run, (snowballing_run env l obj w Hobj).
    set (w1 := foldl (snowball_fetch env (_query obj)) w (_references obj ++ _citations obj)).
    assert (Hheap1 : heap w1 = heap w) by apply snowball_fetches_files_heap.
    destruct (snowball_fetches_trace env (_query obj) (_references obj ++ _citations obj) w)
      as (t0 & Ht0 & Hr0). fold w1 in Ht0.
    destruct (IH objs' w1) as (w' & t & Hrun & Hheap & Ht & Hr).
    { eapply Forall2_impl; [exact Hrest|]. intros l' obj' Hl. cbn in Hl |- *.
      rewrite Hheap1. exact Hl. }
    exists w', (t0 ++ t). repeat split.
    + exact Hrun.
    + congruence.
    + rewrite Ht, Ht0, <- app_assoc. reflexivity.
    + rewrite requests_app, Hr0, Hr. reflexivity.
Qed.

Lemma main_run w :
  match get_top_n_paper_ids env SemanticScholarQueryHelper_init TOP_N_PAPERS KEYWORDS
          FIELDS_OF_STUDY (Some top_n_save_path) w with
  | (Raises e, w1) => main env w = (Raises e, w1)
  | (Returns ids, w1) =>
      match list_comp ids (fun p => SeedPaper_init env p SemanticScholarQueryHelper_init) w1
      with
      | (Raises e, w2) => main env w = (Raises e, w2)
      | (Returns papers, w2) => main env w = for_each papers (snowballing env) w2
      end
  end.
Proof.
  unfold main. cbv zeta.
  change ("./output/top_" +:+ pretty TOP_N_PAPERS +:+ "_papers_about_"
          +:+ join "_" KEYWORDS +:+ ".json") with top_n_save_path.
  rewrite bind_run.
  destruct (get_top_n_paper_ids env _ _ _ _ _ w) as [[ids|e] w1]; [|reflexivity].
  rewrite bind_run. destruct (list_comp ids _ w1) as [[papers|e] w2]; reflexivity.
Qed.

Lemma main_search_requests w :
  exists t,
    trace (snd (get_top_n_paper_ids env SemanticScholarQueryHelper_init TOP_N_PAPERS
                  KEYWORDS FIELDS_OF_STUDY (Some top_n_save_path) w)) = trace w ++ t
    /\ requests t = [main_search].
Proof.
  rewrite get_top_n_paper_ids_world, get_trace. eexists. split; [reflexivity|].
  apply get_requests.
Qed.

(** X8.  When the main block runs to its end, the search returned a list of
    identifiers, one seed paper was built for each of them, in order, and
    the requests it sent are: the search; then the fetch of each seed paper,
    in the order of the search; and only then the snowballing of each paper,
    in the same order, its references before its citations. *)
Theorem main_returns w :
  fst (main env w) = Returns tt ->
  exists ids papers objs,
    fst (get_top_n_paper_ids env SemanticScholarQueryHelper_init TOP_N_PAPERS KEYWORDS
           FIELDS_OF_STUDY (Some top_n_save_path) w) = Returns ids
    /\ Forall2 (fun l obj => heap (snd (main env w)) !! l = Some obj) papers objs
    /\ map _id objs = ids
    /\ requests (events_of (main env) w) =
         main_search :: seed_requests SemanticScholarQueryHelper_init ids
                        ++ flat_map snowball_requests objs.
Proof.
  pose proof (main_run w) as Hmain.
  destruct (main_search_requests w) as (t1 & Ht1 & Hr1).
  destruct (get_top_n_paper_ids env _ _ _ _ _ w) as [[ids|e] w1];
    [|rewrite Hmain; discriminate].
  cbn [snd] in Ht1.
  destruct (list_comp ids _ w1) as [[papers|e] w2] eqn:Hbuild;
    [|rewrite Hmain; discriminate].
  destruct (seed_papers_built _ ids w1 papers w2 Hbuild)
    as (objs & t2 & Hall & Hids & _ & Ht2 & Hr2 & _).
  destruct (snowball_all papers objs w2 Hall) as (w3 & t3 & Hrun & Hheap & Ht3 & Hr3).
  rewrite Hrun in Hmain. intros _. exists ids, papers, objs.
  unfold events_of. rewrite Hmain. cbn [fst snd]. repeat split; auto.
  - rewrite Hheap. exact Hall.
  - rewrite Ht3, Ht2, Ht1, <- !app_assoc, drop_app_length.
    rewrite !requests_app, Hr1, Hr2, Hr3. reflexivity.
Qed.

(** X9.  When the main block raises, no snowballing has begun.  Either the
    search raised, and the search is the one request sent; or the search
    returned identifiers and building one of the seed papers raised, and the
    requests sent are the search and the fetches of the seed papers up to
    that one: the papers after it are never fetched, and none is
    snowballed. *)
Theorem main_raises w e :
  fst (main env w) = Raises e ->
  (fst (get_top_n_paper_ids env SemanticScholarQueryHelper_init TOP_N_PAPERS KEYWORDS
          FIELDS_OF_STUDY (Some top_n_save_path) w) = Raises e
   /\ requests (events_of (main env) w) = [main_search])
  \/ exists ids k,
       fst (get_top_n_paper_ids env SemanticScholarQueryHelper_init TOP_N_PAPERS KEYWORDS
              FIELDS_OF_STUDY (Some top_n_save_path) w) = Returns ids
       /\ (k < length ids)%nat
       /\ requests (events_of (main env) w) =
            main_search :: seed_requests SemanticScholarQueryHelper_init (take (S k) ids).
Proof.
  pose proof (main_run w) as Hmain.
  destruct (main_search_requests w) as (t1 & Ht1 & Hr1).
  destruct (get_top_n_paper_ids env _ _ _ _ _ w) as [[ids|e1] w1]; cbn [snd] in Ht1.
  - destruct (list_comp ids _ w1) as [[papers|e2] w2] eqn:Hbuild.
    + destruct (seed_papers_built _ ids w1 papers w2 Hbuild)
        as (objs & t2 & Hall & _).
      destruct (snowball_all papers objs w2 Hall) as (w3 & t3 & Hrun & _).
      rewrite Hmain, Hrun. discriminate.
    + destruct (seed_papers_aborted _ ids w1 e2 w2 Hbuild) as (k & t2 & Hk & Ht2 & Hr2).
      rewrite Hmain. cbn [fst]. intros [= ->]. right. exists ids, k.
      unfold events_of. rewrite Hmain. cbn [snd]. repeat split; auto.
      rewrite Ht2, Ht1, <- app_assoc, drop_app_length, requests_app, Hr1, Hr2.
      reflexivity.
  - rewrite Hmain. cbn [fst]. intros [= ->]. left. split; [reflexivity|].
    unfold events_of. rewrite Hmain. cbn [snd].
    rewrite Ht1, drop_app_length. exact Hr1.
Qed.

(** ** A service that answers *)




(** ** Responses of the expected shape *)

(** X13.  A search response whose [data] can be iterated and whose records
    all carry a [paperId] is enough for the search to return: it returns
    those identifiers and raises nothing, whatever else the response holds. *)
Theorem search_returns_on_wellformed self n keywords field_of_study save_path w
    entries data papers ids :
  fst (_get env (search_url self n keywords field_of_study) save_path w)
    = Returns (VDict entries) ->
  dict_get entries "data" = Some data ->
  iter data = Returns papers ->
  Forall2 has_paperId papers ids ->
  fst (get_top_n_paper_ids env self n keywords field_of_study save_path w) = Returns ids.
Proof.
  intros Hget Hdata Hiter Hall.
  unfold get_top_n_paper_ids. cbv zeta. rewrite search_url_eq, bind_run.
  destruct (_get env _ save_path w) as [[top|e] w1]; [|discriminate].
  cbn [fst] in Hget. injection Hget as ->.
  rewrite bind_run, lift_run. cbn [getitem]. rewrite Hdata, bind_run, lift_run, Hiter.
  assert (Hloop : forall acc,
            for_acc papers
              (fun paper_ids paper =>
                 paper_id <- lift (getitem paper "paperId") ;;
                 ret (paper_ids ++ [paper_id]))
              acc w1 = (Returns (acc ++ ids), w1)).
  { clear Hiter. induction Hall as [|paper id papers ids Hid _ IH]; intros acc.
    - cbn. rewrite app_nil_r. reflexivity.
    - cbn [for_acc]. rewrite !bind_run, lift_run, Hid, ret_run, IH, <- app_assoc.
      reflexivity. }
  rewrite Hloop. reflexivity.
Qed.

(** X14.  A paper response with [citations] and [references] that can be
    iterated and whose entries all carry a [paperId] is enough for a seed
    paper to be built: the construction returns a reference that was free
    before, the object behind it holds the identifier, the helper and the two
    lists, and every object that existed is still there, unchanged. *)
Theorem seed_paper_built_on_wellformed id query w entries cv cs cits rv rs refs :
  fst (get_metadata env query id QUERY_INFO_ABOUT_A_PAPER (Some (seed_path id)) w)
    = Returns (VDict entries) ->
  dict_get entries "citations" = Some cv -> iter cv = Returns cs ->
  Forall2 has_paperId cs cits ->
  dict_get entries "references" = Some rv -> iter rv = Returns rs ->
  Forall2 has_paperId rs refs ->
  exists self,
    fst (SeedPaper_init env id query w) = Returns self
    /\ heap w !! self = None
    /\ heap (snd (SeedPaper_init env id query w))
       = <[self := mkSeedPaper id query cits refs]> (heap w).
Proof.
  intros Hfetch Hcv Hcs Hcits Hrv Hrs Hrefs.
  exists (fresh (dom (heap w))).
  assert (Hfree : heap w !! fresh (dom (heap w)) = None).
  { apply not_elem_of_dom. apply is_fresh. }
  pose proof (get_heap env (paper_url query id QUERY_INFO_ABOUT_A_PAPER)
                (Some (seed_path id)) w) as Hheap.
  rewrite <- metadata_is_get in Hheap.
  unfold SeedPaper_init. cbv zeta.
  change ("./output/" +:+ SEEDING_PAPER_DIR +:+ "/" +:+ py_str id +:+ ".json")
    with (seed_path id).
  rewrite bind_run.
  destruct (get_metadata env query id QUERY_INFO_ABOUT_A_PAPER (Some (seed_path id)) w)
    as [[metadata|e] w1]; [|discriminate].
  cbn [fst snd] in *. injection Hfetch as ->.
  rewrite bind_run, lift_run. cbn [getitem]. rewrite Hcv.
  rewrite bind_run, lift_run, Hcs, bind_run, (list_comp_returns cs cits w1 Hcits).
  rewrite bind_run, lift_run, Hrv.
  rewrite bind_run, lift_run, Hrs, bind_run, (list_comp_returns rs refs w1 Hrefs).
  unfold alloc. cbn [fst snd heap]. rewrite Hheap. auto.
Qed.

(** ** The throttle in the main block *)

Lemma seed_papers_throttled query ids w :
  exists t,
    trace (snd (list_comp ids (fun p => SeedPaper_init env p query) w)) = trace w ++ t
    /\ throttled t.
Proof.
  revert w. induction ids as [|id ids IH]; intros w.
  - exists []. cbn. rewrite app_nil_r. split; [reflexivity | apply throttled_nil].
  - cbn [list_comp]. rewrite bind_run.
    destruct (run_call_throttled w (CallSeedPaper id query)) as (t0 & Ht0 & Hth0).
    cbn [run_call] in Ht0.
    destruct (SeedPaper_init env id query w) as [[l|e] w1]; cbn [snd] in *.
    + rewrite bind_run. destruct (IH w1) as (t & Ht & Hth).
      exists (t0 ++ t). split; [|apply throttled_app; assumption].
      destruct (list_comp ids _ w1) as [[ls|e] w2]; rewrite ?ret_run; cbn [snd] in *;
        rewrite Ht, Ht0, <- app_assoc; reflexivity.
    + exists t0. auto.
Qed.

Lemma snowballings_throttled locs w :
  exists t,
    trace (snd (for_each locs (snowballing env) w)) = trace w ++ t /\ throttled t.
Proof.
  revert w. induction locs as [|l locs IH]; intros w.
  - exists []. cbn. rewrite app_nil_r. split; [reflexivity | apply throttled_nil].
  - cbn [for_each]. rewrite bind_run.
    destruct (run_call_throttled w (CallSnowballing l)) as (t0 & Ht0 & Hth0).
    cbn [run_call] in Ht0.
    destruct (snowballing env l w) as [[[]|e] w1]; cbn [snd] in *.
    + destruct (IH w1) as (t & Ht & Hth).
      exists (t0 ++ t). split; [|apply throttled_app; assumption].
      rewrite Ht, Ht0, <- app_assoc. reflexivity.
    + exists t0. auto.
Qed.

(** X15.  However the main block ends, the trace it leaves keeps to the
    throttle: every delay is 3.5, there is at most one delay per request
    sent, and every request carries the timeout of 30. *)
Theorem main_keeps_to_the_throttle w :
  exists t,
    trace (snd (main env w)) = trace w ++ t
    /\ Forall (fun d => d = 3.5%Q) (delays t)
    /\ (length (delays t) <= length (requests t))%nat
    /\ Forall (fun r => snd r = 30) (requests t).
Proof.
  change (exists t, trace (snd (main env w)) = trace w ++ t /\ throttled t).
  pose proof (main_run w) as Hmain.
  destruct (run_call_throttled w
              (CallTopN SemanticScholarQueryHelper_init TOP_N_PAPERS KEYWORDS
                 FIELDS_OF_STUDY (Some top_n_save_path))) as (t1 & Ht1 & Hth1).
  cbn [run_call] in Ht1.
  destruct (get_top_n_paper_ids env _ _ _ _ _ w) as [[ids|e] w1]; cbn [snd] in Ht1.
  - destruct (seed_papers_throttled SemanticScholarQueryHelper_init ids w1)
      as (t2 & Ht2 & Hth2).
    destruct (list_comp ids _ w1) as [[papers|e] w2]; cbn [snd] in Ht2.
    + destruct (snowballings_throttled papers w2) as (t3 & Ht3 & Hth3).
      rewrite Hmain. exists (t1 ++ t2 ++ t3).
      rewrite Ht3, Ht2, Ht1, <- !app_assoc. split; [reflexivity|].
      repeat apply throttled_app; assumption.
    + rewrite Hmain. cbn [snd]. exists (t1 ++ t2).
      rewrite Ht2, Ht1, <- app_assoc. split; [reflexivity|].
      apply throttled_app; assumption.
  - rewrite Hmain. cbn [snd]. exists t1. auto.
Qed.

End Runs.

(** * The script at work *)

#[local] Existing Instance PlainJson.lib.



(** C2, counterexample.  The service answers with a page that is not JSON;
    the call fails ([None], a decoding error caught), and the file that held
    an earlier result is now empty. *)
Lemma get_failed_decode_empties_file :
  world_with_file "out.json" "{}" = mkWorld {[ "out.json" := "{}" ]} [] ∅
  /\ fst (_get (serving 200 "<html>") url_A1 (Some "out.json")
            (world_with_file "out.json" "{}")) = Returns VNone
  /\ caught (events_of (_get (serving 200 "<html>") url_A1 (Some "out.json"))
               (world_with_file "out.json" "{}")) = [JSONDecodeError "<html>"]
  /\ files (world_with_file "out.json" "{}") !! "out.json" = Some "{}"
  /\ files (snd (_get (serving 200 "<html>") url_A1 (Some "out.json")
                   (world_with_file "out.json" "{}"))) !! "out.json"
     = Some EmptyString.
Proof. repeat split; vm_compute; reflexivity. Qed.

(** C2, an instance: the same failed decode, in a world without files. *)
Lemma get_failed_fetch_files_witness :
  files (snd (_get (serving 200 "<html>") url_A1 (Some "out.json") empty_world))
  = <[ "out.json" := EmptyString ]> ∅.
Proof.
  apply (get_failed_fetch_files (serving 200 "<html>") url_A1 "out.json" empty_world).
  intros r [= <-]. reflexivity.
Defined.

(** C3, counterexample.  Asked for two papers and answered with three
    records, the search returns three identifiers, one of them the empty
    string and one [None]. *)
Lemma get_top_n_paper_ids_unchecked :
  fst (get_top_n_paper_ids (serving 200 crowded_body) SemanticScholarQueryHelper_init
         2 KEYWORDS FIELDS_OF_STUDY None empty_world)
  = Returns [VStr "A1"; VStr EmptyString; VNone].
Proof. vm_compute. reflexivity. Qed.

(** C3, an instance: the mocked search response with [n = 2]. *)
Lemma get_top_n_paper_ids_returns_witness :
  fst (get_top_n_paper_ids (serving 200 search_body) SemanticScholarQueryHelper_init
         2 KEYWORDS FIELDS_OF_STUDY None empty_world)
  = Returns [VStr "A1"; VStr "B2"]
  /\ exists top data papers,
       fst (_get (serving 200 search_body)
              (search_url SemanticScholarQueryHelper_init 2 KEYWORDS FIELDS_OF_STUDY)
              None empty_world) = Returns top
       /\ getitem top "data" = Returns data
       /\ iter data = Returns papers
       /\ Forall2 has_paperId papers [VStr "A1"; VStr "B2"]
       /\ length [VStr "A1"; VStr "B2"] = length papers
       /\ (top = VDict [("data", VList [VDict [("paperId", VStr "A1")];
                                        VDict [("paperId", VStr "B2")]])] ->
           [VStr "A1"; VStr "B2"] = [VStr "A1"; VStr "B2"]).
Proof.
  assert (Hrun : fst (get_top_n_paper_ids (serving 200 search_body)
                        SemanticScholarQueryHelper_init 2 KEYWORDS FIELDS_OF_STUDY
                        None empty_world) = Returns [VStr "A1"; VStr "B2"])
    by (vm_compute; reflexivity).
  split; [exact Hrun|].
  exact (get_top_n_paper_ids_returns (serving 200 search_body)
           SemanticScholarQueryHelper_init 2 KEYWORDS FIELDS_OF_STUDY None empty_world
           [VStr "A1"; VStr "B2"] Hrun).
Defined.

(** C4, an instance: a paper with three citations, the first and the last
    the same, and two references, both the same; the views keep the order
    and the repetitions. *)
Lemma seed_paper_views_witness :
  fst (SeedPaper_init (serving 200 busy_paper_body) (VStr "A1")
         SemanticScholarQueryHelper_init empty_world) = Returns 0%nat
  /\ fst (citations 0%nat
            (snd (SeedPaper_init (serving 200 busy_paper_body) (VStr "A1")
                    SemanticScholarQueryHelper_init empty_world)))
     = Returns [VStr "C2"; VStr "C1"; VStr "C2"]
  /\ fst (references 0%nat
            (snd (SeedPaper_init (serving 200 busy_paper_body) (VStr "A1")
                    SemanticScholarQueryHelper_init empty_world)))
     = Returns [VStr "R1"; VStr "R1"].
Proof.
  assert (Hrun : fst (SeedPaper_init (serving 200 busy_paper_body) (VStr "A1")
                        SemanticScholarQueryHelper_init empty_world) = Returns 0%nat)
    by (vm_compute; reflexivity).
  split; [exact Hrun|].
  destruct (seed_paper_views (serving 200 busy_paper_body) (VStr "A1")
              SemanticScholarQueryHelper_init empty_world 0%nat busy_paper_record
              [VDict [("paperId", VStr "C2")]; VDict [("paperId", VStr "C1")];
               VDict [("paperId", VStr "C2")]]
              [VDict [("paperId", VStr "R1")]; VDict [("paperId", VStr "R1")]]
              Hrun) as (Hcits & Hrefs & _).
  - vm_compute. reflexivity.
  - reflexivity.
  - reflexivity.
  - split; [exact Hcits | exact Hrefs].
Defined.

(** C5, an instance: snowballing the paper A1 sends two requests, for R1
    and then for C1. *)
Lemma snowballing_fetches_witness :
  heap (seeded_world) !! 0%nat = Some paperA1
  /\ requests (events_of (snowballing (serving 200 paper_body) 0%nat)
                 (seeded_world)) =
       [(paper_url SemanticScholarQueryHelper_init (VStr "R1") QUERY_INFO_ABOUT_A_PAPER, 30);
        (paper_url SemanticScholarQueryHelper_init (VStr "C1") QUERY_INFO_ABOUT_A_PAPER, 30)].
Proof.
  assert (Hobj : heap (seeded_world) !! 0%nat = Some paperA1)
    by (vm_compute; reflexivity).
  split; [exact Hobj|].
  destruct (snowballing_fetches (serving 200 paper_body) 0%nat paperA1
              (seeded_world) Hobj) as (_ & Hrequests & _).
  exact Hrequests.
Defined.


(** C7, an instance: the service does not answer within the timeout. *)
Lemma get_absorbs_request_error_witness :
  session_get stalled (at_request empty_world url_A1) url_A1 30 = Failed (ReadTimeout 30)
  /\ fst (_get stalled url_A1 (Some "out.json") empty_world) = Returns VNone
  /\ caught (events_of (_get stalled url_A1 (Some "out.json")) empty_world)
     = [ReadTimeout 30].
Proof.
  split; [reflexivity|].
  destruct (get_absorbs_request_error stalled url_A1 (Some "out.json") empty_world
              (ReadTimeout 30) eq_refl) as (Hget & _ & Hcaught).
  split; [rewrite Hget; reflexivity | exact Hcaught].
Defined.

(** C8, an instance: the paper A1 after a search, a new seed paper and two
    rounds of snowballing. *)
Lemma seed_paper_is_immutable_witness :
  heap (seeded_world) !! 0%nat = Some paperA1
  /\ fst (citations 0%nat
            (run_calls (serving 200 paper_body) (seeded_world)
               [CallTopN SemanticScholarQueryHelper_init 2 KEYWORDS FIELDS_OF_STUDY None;
                CallSeedPaper (VStr "B2") SemanticScholarQueryHelper_init;
                CallSnowballing 0%nat; CallSnowballing 1%nat; CallSnowballing 0%nat]))
     = Returns [VStr "C1"].
Proof.
  assert (Hobj : heap (seeded_world) !! 0%nat = Some paperA1)
    by (vm_compute; reflexivity).
  split; [exact Hobj|].
  destruct (seed_paper_is_immutable (serving 200 paper_body) 0%nat paperA1
              (seeded_world)
              [CallTopN SemanticScholarQueryHelper_init 2 KEYWORDS FIELDS_OF_STUDY None;
               CallSeedPaper (VStr "B2") SemanticScholarQueryHelper_init;
               CallSnowballing 0%nat; CallSnowballing 1%nat; CallSnowballing 0%nat]
              Hobj) as (_ & Hcitations & _).
  exact Hcitations.
Defined.

(** C10, an instance: the output directory does not exist, so the file
    cannot be opened. *)
Lemma get_failed_save_witness :
  open_ok (steady (Responded (mkResponse 200 paper_body)) false None)
    (at_save empty_world url_A1) "./output/seed papers/A1.json" = false
  /\ fst (_get (steady (Responded (mkResponse 200 paper_body)) false None) url_A1
            (Some "./output/seed papers/A1.json") empty_world) = Returns VNone
  /\ delays (events_of (_get (steady (Responded (mkResponse 200 paper_body)) false None)
                          url_A1 (Some "./output/seed papers/A1.json")) empty_world) = [].
Proof.
  split; [reflexivity|].
  destruct (get_failed_save (steady (Responded (mkResponse 200 paper_body)) false None)
              url_A1 "./output/seed papers/A1.json" empty_world
              (mkResponse 200 paper_body)) as (Hret & _ & Hdelays & _).
  - discriminate.
  - reflexivity.
  - left. reflexivity.
  - split; [exact Hret | exact Hdelays].
Defined.

(** C9, an instance: a 404 with an error body is decoded, saved and
    returned like any other response. *)
Lemma get_ignores_status_witness :
  _get (restatus (fun _ => 200) (serving 404 not_found_body)) url_A1 (Some "out.json")
    empty_world
  = _get (serving 404 not_found_body) url_A1 (Some "out.json") empty_world
  /\ fst (_get (serving 404 not_found_body) url_A1 (Some "out.json") empty_world)
     = Returns (VDict [("error", VStr "Paper not found")])
  /\ files (snd (_get (serving 404 not_found_body) url_A1 (Some "out.json") empty_world))
       !! "out.json" = Some not_found_body.
Proof.
  destruct (get_ignores_status (serving 404 not_found_body) (fun _ => 200) url_A1
              (Some "out.json") empty_world) as [Hsame Hdecoded].
  split; [exact Hsame|].
  destruct (Hdecoded (mkResponse 404 not_found_body)
              (VDict [("error", VStr "Paper not found")]))
    as (Hret & _ & Hfile); [reflexivity | reflexivity | reflexivity |].
  split; [exact Hret|]. apply (Hfile "out.json"); [reflexivity | discriminate].
Defined.

(** X2, an instance: with no connection the search raises. *)
Lemma failed_fetch_raises_in_callers_witness :
  fst (get_top_n_paper_ids offline SemanticScholarQueryHelper_init 5 KEYWORDS
         FIELDS_OF_STUDY None empty_world)
  = Raises (TypeError "'NoneType' object is not subscriptable").
Proof.
  apply (failed_fetch_raises_in_callers offline SemanticScholarQueryHelper_init 5 KEYWORDS
           FIELDS_OF_STUDY None VNone empty_world).
  intros t url. exists (ConnectionError "unreachable"). reflexivity.
Defined.

(** The mocked paper, end to end: building the seed paper A1 sends one
    request and leaves one file, the one of A1 under the seed papers; its
    views are C1 and R1; snowballing it then sends two more requests, for R1
    and then for C1, and leaves their two files under the snowballing
    papers. *)
Example mocked_seed_paper_end_to_end :
  fst (SeedPaper_init (serving 200 paper_body) (VStr "A1") SemanticScholarQueryHelper_init
         empty_world) = Returns 0%nat
  /\ fst (citations 0%nat seeded_world) = Returns [VStr "C1"]
  /\ fst (references 0%nat seeded_world) = Returns [VStr "R1"]
  /\ requests (trace seeded_world) =
       [(paper_url SemanticScholarQueryHelper_init (VStr "A1") QUERY_INFO_ABOUT_A_PAPER, 30)]
  /\ map fst (map_to_list (files seeded_world)) = ["./output/seed papers/A1.json"]
  /\ requests (events_of (snowballing (serving 200 paper_body) 0%nat) seeded_world) =
       [(paper_url SemanticScholarQueryHelper_init (VStr "R1") QUERY_INFO_ABOUT_A_PAPER, 30);
        (paper_url SemanticScholarQueryHelper_init (VStr "C1") QUERY_INFO_ABOUT_A_PAPER, 30)]
  /\ files (snd (snowballing (serving 200 paper_body) 0%nat seeded_world))
       !! "./output/snowballing papers/R1.json" = Some paper_body
  /\ files (snd (snowballing (serving 200 paper_body) 0%nat seeded_world))
       !! "./output/snowballing papers/C1.json" = Some paper_body
  /\ size (files (snd (snowballing (serving 200 paper_body) 0%nat seeded_world))) = 3%nat.
Proof. repeat split; vm_compute; reflexivity. Qed.

(** X4, an instance: a search answered with an error body. *)
Lemma search_on_malformed_response_witness :
  fst (_get (serving 404 not_found_body)
         (search_url SemanticScholarQueryHelper_init 5 KEYWORDS FIELDS_OF_STUDY)
         (Some top_n_save_path) empty_world)
  = Returns (VDict [("error", VStr "Paper not found")])
  /\ fst (get_top_n_paper_ids (serving 404 not_found_body) SemanticScholarQueryHelper_init
            5 KEYWORDS FIELDS_OF_STUDY (Some top_n_save_path) empty_world)
     = Raises (KeyError "data")
  /\ files (snd (get_top_n_paper_ids (serving 404 not_found_body)
                   SemanticScholarQueryHelper_init 5 KEYWORDS FIELDS_OF_STUDY
                   (Some top_n_save_path) empty_world)) !! top_n_save_path
     = Some not_found_body.
Proof.
  assert (Hget : fst (_get (serving 404 not_found_body)
                        (search_url SemanticScholarQueryHelper_init 5 KEYWORDS
                           FIELDS_OF_STUDY)
                        (Some top_n_save_path) empty_world)
                 = Returns (VDict [("error", VStr "Paper not found")]))
    by (vm_compute; reflexivity).
  split; [exact Hget|].
  destruct (search_on_malformed_response (serving 404 not_found_body)
              SemanticScholarQueryHelper_init 5 KEYWORDS FIELDS_OF_STUDY
              (Some top_n_save_path) empty_world _ Hget) as (Hworld & Hdata & _).
  split.
  - apply (Hdata [("error", VStr "Paper not found")]); reflexivity.
  - rewrite Hworld. vm_compute. reflexivity.
Defined.

(** X5, an instance: the mocked paper saved twice over an older file. *)
Lemma get_overwrites_and_repeats_witness :
  files (snd (_get (serving 200 paper_body) url_A1 (Some "out.json")
                (world_with_file "out.json" "{}")))
  = <[ "out.json" := PlainJson.dumps paper_record ]> {[ "out.json" := "{}" ]}.
Proof.
  refine (proj1 (get_overwrites_and_repeats (serving 200 paper_body) url_A1 "out.json"
                   (world_with_file "out.json" "{}") paper_record _ _ _)).
  - discriminate.
  - vm_compute. reflexivity.
  - vm_compute. reflexivity.
Defined.

(** X6, an instance: a seed paper whose fetch is answered with an error
    body. *)
Lemma seed_paper_on_malformed_response_witness :
  fst (SeedPaper_init (serving 404 not_found_body) (VStr "A1")
         SemanticScholarQueryHelper_init empty_world) = Raises (KeyError "citations")
  /\ heap (snd (SeedPaper_init (serving 404 not_found_body) (VStr "A1")
                  SemanticScholarQueryHelper_init empty_world)) = ∅.
Proof.
  refine (proj1 (proj2 (proj2 (seed_paper_on_malformed_response
            (serving 404 not_found_body) (VStr "A1") SemanticScholarQueryHelper_init
            empty_world [("error", VStr "Paper not found")] _))) _).
  - vm_compute. reflexivity.
  - reflexivity.
Defined.

(** X8, an instance: the main block against the mocked service. *)
Lemma main_returns_witness :
  fst (main mock_service empty_world) = Returns tt
  /\ exists ids papers objs,
       fst (get_top_n_paper_ids mock_service SemanticScholarQueryHelper_init TOP_N_PAPERS
              KEYWORDS FIELDS_OF_STUDY (Some top_n_save_path) empty_world) = Returns ids
       /\ Forall2 (fun l obj => heap (snd (main mock_service empty_world)) !! l = Some obj)
            papers objs
       /\ map _id objs = ids
       /\ requests (events_of (main mock_service) empty_world) =
            main_search :: seed_requests SemanticScholarQueryHelper_init ids
                           ++ flat_map snowball_requests objs.
Proof.
  assert (Hrun : fst (main mock_service empty_world) = Returns tt)
    by (vm_compute; reflexivity).
  split; [exact Hrun|]. exact (main_returns mock_service empty_world Hrun).
Defined.

(** X9, an instance: the main block with no connection. *)
Lemma main_raises_witness :
  fst (main offline empty_world) = Raises (TypeError "'NoneType' object is not subscriptable")
  /\ requests (events_of (main offline) empty_world) = [main_search].
Proof.
  assert (Hrun : fst (main offline empty_world)
                 = Raises (TypeError "'NoneType' object is not subscriptable"))
    by (vm_compute; reflexivity).
  split; [exact Hrun|].
  destruct (main_raises offline empty_world _ Hrun) as [[_ Hreqs] | (ids & k & Hids & _)].
  - exact Hreqs.
  - vm_compute in Hids. discriminate Hids.
Defined.


(** X13, an instance: the mocked search response. *)
Lemma search_returns_on_wellformed_witness :
  fst (get_top_n_paper_ids (serving 200 search_body) SemanticScholarQueryHelper_init
         2 KEYWORDS FIELDS_OF_STUDY None empty_world)
  = Returns [VStr "A1"; VStr "B2"].
Proof.
  refine (search_returns_on_wellformed (serving 200 search_body)
            SemanticScholarQueryHelper_init 2 KEYWORDS FIELDS_OF_STUDY None empty_world
            [("data", VList [VDict [("paperId", VStr "A1")];
                             VDict [("paperId", VStr "B2")]])]
            (VList [VDict [("paperId", VStr "A1")]; VDict [("paperId", VStr "B2")]])
            [VDict [("paperId", VStr "A1")]; VDict [("paperId", VStr "B2")]]
            [VStr "A1"; VStr "B2"] _ _ _ _).
  - vm_compute. reflexivity.
  - reflexivity.
  - reflexivity.
  - repeat constructor.
Defined.

(** X14, an instance: the mocked paper response. *)
Lemma seed_paper_built_on_wellformed_witness :
  exists self,
    fst (SeedPaper_init (serving 200 paper_body) (VStr "A1")
           SemanticScholarQueryHelper_init empty_world) = Returns self
    /\ heap empty_world !! self = None
    /\ heap (snd (SeedPaper_init (serving 200 paper_body) (VStr "A1")
                    SemanticScholarQueryHelper_init empty_world))
       = <[self := paperA1]> (heap empty_world).
Proof.
  refine (seed_paper_built_on_wellformed (serving 200 paper_body) (VStr "A1")
            SemanticScholarQueryHelper_init empty_world
            [("citations", VList [VDict [("paperId", VStr "C1")]]);
             ("references", VList [VDict [("paperId", VStr "R1")]])]
            (VList [VDict [("paperId", VStr "C1")]]) [VDict [("paperId", VStr "C1")]]
            [VStr "C1"]
            (VList [VDict [("paperId", VStr "R1")]]) [VDict [("paperId", VStr "R1")]]
            [VStr "R1"] _ _ _ _ _ _ _).
  - vm_compute. reflexivity.
  - reflexivity.
  - reflexivity.
  - repeat constructor.
  - reflexivity.
  - reflexivity.
  - repeat constructor.
Defined.
